(** * table_properties.db: reshaping of the Cassandra schema catalog

    A shallow embedding of [table_properties/db.py].  Python values are an
    inductive type, dictionaries are insertion-ordered association lists,
    functions that can raise return a [result], and the calls into the
    Cassandra driver go through an explicit world (event trace) driven by
    a [Driver] oracle. *)

From Stdlib Require Import List String Ascii ZArith Bool Lia Uint63 PrimFloat.
From Stdlib Require Import SpecFloat FloatOps.
Import ListNotations.

Set Warnings "-register-all".

Local Open Scope string_scope.
Local Open Scope list_scope.

(** ** Python values *)

(** The values the catalog rows and the connection dictionaries hold.
    [VBytes] is a [bytes] object (a CQL blob); [VDict] is a
    [dict]/[OrderedDict] with string keys, in insertion order; [VMap] is a
    [cassandra.util.OrderedMapSerializedKey] (the driver's decoding of a CQL
    map with text keys), [VSortedSet] a [cassandra.util.SortedSet] held in
    its sorted order, [VUUID] a [uuid.UUID] by its 128-bit integer, and
    [VObject] an object of any other class, given by the class name, that
    has none of the methods the code calls ([split], [lower], [startswith],
    [get]) and cannot be iterated: a [Decimal], a date, a policy. *)
Inductive value : Type :=
| VNone
| VBool (b : bool)
| VInt (n : Z)
| VFloat (f : float)
| VStr (s : string)
| VBytes (b : string)
| VList (l : list value)
| VDict (d : list (string * value))
| VMap (m : list (string * value))
| VSortedSet (l : list value)
| VUUID (u : N)
| VObject (cls : string).

Definition dict : Type := list (string * value).

(** Exceptions.  [NoHostAvailable] is the driver's
    [cassandra.cluster.NoHostAvailable]; [PyException] is any other class
    derived from [Exception]; [PyBaseException] is a class that is not
    ([KeyboardInterrupt], [SystemExit]), which [except Exception] lets
    through. *)
Inductive exn : Type :=
| NoHostAvailable (diag : string)
| PyException (cls msg : string)
| PyBaseException (cls msg : string).

Inductive result (A : Type) : Type :=
| Ok (a : A)
| Raise (e : exn).
Arguments Ok {A} a.
Arguments Raise {A} e.

Definition rbind {A B} (r : result A) (k : A -> result B) : result B :=
  match r with
  | Ok a => k a
  | Raise e => Raise e
  end.

Notation "'let?' x ':=' r 'in' k" := (rbind r (fun x => k))
  (at level 10, x name, r at level 100, k at level 200).

(** The name Python prints for the type of a value. *)
Definition type_name (v : value) : string :=
  match v with
  | VNone => "NoneType"
  | VBool _ => "bool"
  | VInt _ => "int"
  | VFloat _ => "float"
  | VStr _ => "str"
  | VBytes _ => "bytes"
  | VList _ => "list"
  | VDict _ => "dict"
  | VMap _ => "OrderedMapSerializedKey"
  | VSortedSet _ => "SortedSet"
  | VUUID _ => "UUID"
  | VObject cls => cls
  end.

Definition attribute_error {A} (v : value) (attr : string) : result A :=
  Raise (PyException "AttributeError"
           ("'" ++ type_name v ++ "' object has no attribute '" ++ attr ++ "'")).

Definition key_error {A} (k : string) : result A :=
  Raise (PyException "KeyError" k).

Definition type_error {A} (msg : string) : result A :=
  Raise (PyException "TypeError" msg).

(** [isinstance(v, str)] and [isinstance(v, OrderedMapSerializedKey)]. *)
Definition is_str (v : value) : bool :=
  match v with VStr _ => true | _ => false end.

Definition is_map (v : value) : bool :=
  match v with VMap _ => true | _ => false end.

(** Truth value of an object, as [not connection] tests it. *)
Definition truthy (v : value) : bool :=
  match v with
  | VNone => false
  | VBool b => b
  | VInt n => negb (n =? 0)%Z
  | VFloat f => negb (PrimFloat.eqb f PrimFloat.zero)
  | VStr s | VBytes s => negb (String.eqb s "")
  | VList [] | VDict [] | VMap [] | VSortedSet [] => false
  | _ => true
  end.

(** ** Dictionaries *)

(** [d.get(k)], as an option. *)
Fixpoint dict_lookup (k : string) (d : dict) : option value :=
  match d with
  | [] => None
  | (k', v) :: r => if String.eqb k k' then Some v else dict_lookup k r
  end.

(** [d[k] = v]: a key already there keeps its place and takes the new value,
    a new key goes last. *)
Fixpoint dict_set (d : dict) (k : string) (v : value) : dict :=
  match d with
  | [] => [(k, v)]
  | (k', v') :: r =>
      if String.eqb k k' then (k', v) :: r else (k', v') :: dict_set r k v
  end.

(** [d.get(k, default)]. *)
Definition dict_get (d : dict) (k : string) (default : value) : value :=
  match dict_lookup k d with
  | Some v => v
  | None => default
  end.

Definition dict_keys (d : dict) : list string := map fst d.

(** The driver's ordered map: [keys()] walks the items in order, and
    [m[k]] goes through an index that holds the position of the latest item
    stored under [k]. *)
Definition om_keys (m : dict) : list string := map fst m.

Definition om_lookup (k : string) (m : dict) : option value :=
  dict_lookup k (rev m).

Definition om_getitem (m : dict) (k : string) : result value :=
  match om_lookup k m with
  | Some v => Ok v
  | None => key_error k
  end.

(** [m.items()] is the mapping view: each key paired with [m[key]]. *)
Fixpoint om_items_of (m : dict) (ks : list string) : result (list (string * value)) :=
  match ks with
  | [] => Ok []
  | k :: r =>
      let? v := om_getitem m k in
      let? t := om_items_of m r in
      Ok ((k, v) :: t)
  end.

Definition om_items (m : dict) : result (list (string * value)) :=
  om_items_of m (om_keys m).

(** ** Built-in functions *)

(** [int(s)], [float(s)] on a string ([None] is [ValueError]), [str(v)] on a
    value that is not a string, and [s.lower()].  Their Unicode and
    floating-point details are the interpreter's; the development is
    parametric in them. *)
Class Builtins : Type := {
  py_int : string -> option Z;
  py_float : string -> option float;
  py_str_of : value -> string;
  py_lower : string -> string
}.

(** [str(v)]: a string is its own string form. *)
Definition py_str `{Builtins} (v : value) : string :=
  match v with
  | VStr s => s
  | _ => py_str_of v
  end.

(** [s.split(sep)] for a one-character separator: the pieces between the
    occurrences of [sep], never an empty list. *)
Fixpoint split_on (sep : ascii) (s : string) : list string :=
  match s with
  | EmptyString => [EmptyString]
  | String c r =>
      if Ascii.eqb c sep then EmptyString :: split_on sep r
      else match split_on sep r with
           | h :: t => String c h :: t
           | [] => [String c EmptyString]
           end
  end.

Definition dot : ascii := "."%char.

(** ** db.py *)

Definition DEFAULT_PORT : Z := 9042.

(** [full_class_name.split(".")[-1]]: [bytes] has [split] too, but refuses
    a string as the separator; a value without a [split] method raises
    [AttributeError]. *)
Definition get_class_name (full_class_name : value) : result value :=
  match full_class_name with
  | VStr s => Ok (VStr (last (split_on dot s) EmptyString))
  | VBytes _ => type_error "a bytes-like object is required, not 'str'"
  | v => attribute_error v "split"
  end.

Section WithBuiltins.
Context `{B : Builtins}.

Definition convert_value (val : value) : value :=
  if negb (is_str val) then val
  else match val with
       | VStr s =>
           match py_int s with
           | Some n => VInt n
           | None =>
               match py_float s with
               | Some f => VFloat f
               | None => val
               end
           end
       | _ => val
       end.

(** [mapping.get(orig_key, orig_key)] over the fixed renaming table. *)
Definition key_mapping : list (string * string) :=
  [("keyspace_name", "name"); ("table_name", "name")].

Fixpoint mapping_get (mapping : list (string * string)) (k default : string) : string :=
  match mapping with
  | [] => default
  | (k', v) :: r => if String.eqb k k' then v else mapping_get r k default
  end.

Definition key_mapper (orig_key : string) : string :=
  mapping_get key_mapping orig_key orig_key.

(** One data-center entry of the replication settings. *)
Definition data_center (key : string) (v : value) : value :=
  VDict [("name", VStr key); ("replication_factor", convert_value v)].

(** The loop of [get_replication_settings] over [replication.keys()], with
    the two objects it fills: [repl_config] and [data_centers]. *)
Fixpoint replication_loop (replication : dict) (keys : list string)
    (repl_config : dict) (data_centers : list value)
    : result (dict * list value) :=
  match keys with
  | [] => Ok (repl_config, data_centers)
  | key :: rest =>
      if String.eqb key "class" then
        let? v := om_getitem replication "class" in
        let? c := get_class_name v in
        replication_loop replication rest (dict_set repl_config "class" c) data_centers
      else if String.eqb key "replication_factor" then
        let? v := om_getitem replication "replication_factor" in
        replication_loop replication rest
          (dict_set repl_config "replication_factor" (convert_value v)) data_centers
      else
        let? v := om_getitem replication key in
        replication_loop replication rest repl_config
          (data_centers ++ [data_center key v])
  end.

Definition get_replication_settings (replication : value) : result value :=
  if negb (is_map replication) then Ok (VDict [])
  else match replication with
       | VMap m =>
           let? st := replication_loop m (om_keys m) [] [] in
           Ok (VDict (dict_set (fst st) "data_centers" (VList (snd st))))
       | _ => Ok (VDict [])
       end.

(** The loop of [get_subconfig_settings] over [subconfig.items()]. *)
Fixpoint subconfig_loop (items : list (string * value)) (settings : dict)
    : result dict :=
  match items with
  | [] => Ok settings
  | (key, v) :: rest =>
      let? v' := (if String.eqb key "class" then get_class_name v else Ok v) in
      subconfig_loop rest (dict_set settings key (convert_value v'))
  end.

Definition get_subconfig_settings (subconfig : value) : result value :=
  if negb (is_map subconfig) then Ok (VDict [])
  else match subconfig with
       | VMap m =>
           let? items := om_items m in
           let? settings := subconfig_loop items [] in
           Ok (VDict settings)
       | _ => Ok (VDict [])
       end.

(** [b.lower()] on [bytes]: the ASCII letters only. *)
Definition lower_byte (c : ascii) : ascii :=
  let n := nat_of_ascii c in
  if ((65 <=? n) && (n <=? 90))%nat then ascii_of_nat (n + 32) else c.

Fixpoint bytes_lower (b : string) : string :=
  match b with
  | EmptyString => EmptyString
  | String c r => String (lower_byte c) (bytes_lower r)
  end.

(** [row.get("keyspace_name").lower()]: strings and [bytes] have [lower]. *)
Definition lower_of (v : value) : result value :=
  match v with
  | VStr s => Ok (VStr (py_lower s))
  | VBytes b => Ok (VBytes (bytes_lower b))
  | _ => attribute_error v "lower"
  end.

(** [s.startswith(p)]. *)
Definition startswith (s p : string) : bool := String.prefix p s.

Definition is_system_keyspace (ks_name : string) : bool :=
  String.eqb ks_name "system" || startswith ks_name "system_".

(** [ks_name == "system" or ks_name.startswith("system_")] on what [lower]
    returned: [bytes] are equal to no string, and their [startswith]
    refuses a string. *)
Definition system_test (ks_name : value) : result bool :=
  match ks_name with
  | VStr s => Ok (is_system_keyspace s)
  | VBytes _ =>
      type_error "startswith first arg must be bytes or a tuple of bytes, not str"
  | v => attribute_error v "startswith"
  end.

(** The inner loop of [get_keyspace_configs] over [row.items()]. *)
Fixpoint keyspace_fields (items : list (string * value)) (ks : dict) : result dict :=
  match items with
  | [] => Ok ks
  | (k, v) :: rest =>
      let nk := key_mapper k in
      let? v' := (if String.eqb nk "replication"
                  then get_replication_settings v else Ok v) in
      keyspace_fields rest (dict_set ks nk v')
  end.

(** The outer loop of [get_keyspace_configs] over the rows. *)
Fixpoint keyspace_rows (rows : list dict) (keyspace_configs : list dict)
    : result (list dict) :=
  match rows with
  | [] => Ok keyspace_configs
  | row :: rest =>
      let? ks_name := lower_of (dict_get row "keyspace_name" VNone) in
      let? system := system_test ks_name in
      if system then keyspace_rows rest keyspace_configs
      else
        let? ks := keyspace_fields row [] in
        keyspace_rows rest (keyspace_configs ++ [ks])
  end.

(** What [get_table_configs] stores for the column [k] with value [v]. *)
Definition table_value (k : string) (v : value) : result value :=
  if is_map v then
    if String.eqb k "replication" then get_replication_settings v
    else get_subconfig_settings v
  else if String.eqb k "flags" then
    Ok (match v with VSortedSet l => VList l | _ => v end)
  else if String.eqb k "id" then Ok (VStr (py_str v))
  else Ok v.

(** The inner loop of [get_table_configs] over [row.items()]. *)
Fixpoint table_fields (items : list (string * value)) (t : dict) : result dict :=
  match items with
  | [] => Ok t
  | (k, v) :: rest =>
      if String.eqb k "keyspace_name" then table_fields rest t
      else
        let? v' := table_value k v in
        table_fields rest (dict_set t (key_mapper k) v')
  end.

(** The outer loop of [get_table_configs] over the rows. *)
Fixpoint table_rows (rows : list dict) (table_configs : list dict)
    : result (list dict) :=
  match rows with
  | [] => Ok table_configs
  | row :: rest =>
      let? t := table_fields row [] in
      table_rows rest (table_configs ++ [t])
  end.

End WithBuiltins.

(** ** The driver and the world *)

(** The arguments [exec_query] gives to [cassandra.cluster.Cluster]. *)
Record cluster_args : Type := {
  contact_points : value;
  port : value;
  load_balancing_policy : value
}.

(** What a call does to the outside: a [Cluster] is built, a session is
    opened on a keyspace, a statement is executed in a session, a session is
    shut down, an exception goes to the log.  [cluster.connect] also opens
    the cluster's own control connection, which stays when the session is
    shut down and goes with [cluster.shutdown()] only: [EvClusterShutdown
    sid] is that call on the cluster that opened the session [sid].  (A
    [connect] that fails leaves nothing: the driver shuts the cluster down
    itself before it raises.) *)
Inductive event : Type :=
| EvCluster (a : cluster_args)
| EvConnect (sid : nat) (keyspace : string)
| EvExecute (sid : nat) (stmt : string)
| EvShutdown (sid : nat)
| EvClusterShutdown (sid : nat)
| EvLog (e : exn).

(** The world is the trace of events so far, oldest first. *)
Definition world : Type := list event.

(** The driver and the cluster behind it.  Each answer may depend on the
    whole history: [cluster_new] is the [Cluster(...)] constructor,
    [cluster_connect] is [cluster.connect(keyspace)] and [session_execute]
    is [session.execute(stmt)] with the rows as the ordered dictionaries
    that [ordered_dict_factory] builds ([rows.current_rows]). *)
Class Driver : Type := {
  cluster_new : world -> cluster_args -> option exn;
  cluster_connect : world -> cluster_args -> string -> option exn;
  session_execute : world -> cluster_args -> string -> result (list dict)
}.

(** Computations in the world that may raise. *)
Definition M (A : Type) : Type := world -> result A * world.

Definition ret {A} (a : A) : M A := fun w => (Ok a, w).

Definition raise {A} (e : exn) : M A := fun w => (Raise e, w).

Definition bind {A B} (m : M A) (k : A -> M B) : M B :=
  fun w =>
    match m w with
    | (Ok a, w1) => k a w1
    | (Raise e, w1) => (Raise e, w1)
    end.

Definition lift {A} (r : result A) : M A := fun w => (r, w).

Definition emit (ev : event) : M unit := fun w => (Ok tt, w ++ [ev]).

Notation "x <- m ;; k" := (bind m (fun x => k))
  (at level 61, m at next level, right associativity).
Notation "m ;;; k" := (bind m (fun _ => k))
  (at level 61, right associativity).

(** [try: body except ...]: [handler e] is the clause that catches [e], if
    one does. *)
Definition try_except {A} (body : M A) (handler : exn -> option (M A)) : M A :=
  fun w =>
    match body w with
    | (Ok a, w1) => (Ok a, w1)
    | (Raise e, w1) =>
        match handler e with
        | Some h => h w1
        | None => (Raise e, w1)
        end
    end.

(** [with enter as x: body]: when [enter] returns, [exit x] runs on every
    way out of [body], and an exception of [body] goes on afterwards. *)
Definition with_as {R A} (enter : M R) (exit : R -> M unit) (body : R -> M A) : M A :=
  fun w =>
    match enter w with
    | (Raise e, w1) => (Raise e, w1)
    | (Ok x, w1) =>
        match body x w1 with
        | (r, w2) =>
            match exit x w2 with
            | (Ok _, w3) => (r, w3)
            | (Raise e, w3) => (Raise e, w3)
            end
        end
    end.

(** Session handles: a new session takes the first number above all the
    sessions the trace has seen. *)
Fixpoint fresh_sid (w : world) : nat :=
  match w with
  | [] => 0
  | EvConnect sid _ :: r => Nat.max (S sid) (fresh_sid r)
  | _ :: r => fresh_sid r
  end.

(** The sessions a trace leaves open: connected and not shut down since. *)
Fixpoint open_from (opened : list nat) (w : world) : list nat :=
  match w with
  | [] => opened
  | EvConnect sid _ :: r => open_from (opened ++ [sid]) r
  | EvShutdown sid :: r => open_from (remove Nat.eq_dec sid opened) r
  | _ :: r => open_from opened r
  end.

Definition open_sessions (w : world) : list nat := open_from [] w.

(** The control connections a trace leaves open, each by the session its
    cluster opened: connected and their cluster not shut down since. *)
Fixpoint clusters_from (opened : list nat) (w : world) : list nat :=
  match w with
  | [] => opened
  | EvConnect sid _ :: r => clusters_from (opened ++ [sid]) r
  | EvClusterShutdown sid :: r => clusters_from (remove Nat.eq_dec sid opened) r
  | _ :: r => clusters_from opened r
  end.

Definition open_clusters (w : world) : list nat := clusters_from [] w.

(** ** db.py, the part that talks to the cluster *)

Definition round_robin : value := VObject "RoundRobinPolicy".

Definition get_local_connection : dict :=
  [("hosts", VList [VStr "localhost"]);
   ("port", VInt DEFAULT_PORT);
   ("load_balancing_policy", round_robin)].

Definition get_default_connection : dict := get_local_connection.

(** [d[k]] on a dictionary. *)
Definition dict_getitem (d : dict) (k : string) : result value :=
  match dict_lookup k d with
  | Some v => Ok v
  | None => key_error k
  end.

(** [connection.get(k, default)]: dictionaries and the driver's maps have
    [get]; on anything else the attribute is missing. *)
Definition conn_get (connection : value) (k : string) (default : value)
    : result value :=
  match connection with
  | VDict d => Ok (dict_get d k default)
  | VMap m => Ok (match om_lookup k m with Some v => v | None => default end)
  | v => attribute_error v "get"
  end.

(** The generic failure [exec_query] raises when no host is available. *)
Definition connect_failure : exn :=
  PyException "Exception" "Failed to connect to Cassandra. See log for details.".

Section WithDriver.
Context `{D : Driver}.

(** [cassandra.cluster.Cluster(hosts, port=..., load_balancing_policy=...)]. *)
Definition new_cluster (a : cluster_args) : M cluster_args :=
  emit (EvCluster a) ;;;
  fun w => match cluster_new w a with
           | Some e => (Raise e, w)
           | None => (Ok a, w)
           end.

(** [cluster.connect(keyspace, wait_for_all_pools=True)]. *)
Definition connect (cluster : cluster_args) (keyspace : string) : M nat :=
  fun w =>
    match cluster_connect w cluster keyspace with
    | Some e => (Raise e, w)
    | None => (Ok (fresh_sid w), w ++ [EvConnect (fresh_sid w) keyspace])
    end.

(** [Session.__exit__], which is [session.shutdown()]. *)
Definition session_exit (sid : nat) : M unit := emit (EvShutdown sid).

(** [session.execute(query_stmt)] followed by [rows.current_rows]. *)
Definition execute (cluster : cluster_args) (sid : nat) (stmt : string)
    : M (list dict) :=
  emit (EvExecute sid stmt) ;;;
  fun w => (session_execute w cluster stmt, w).

(** [logging.exception(ex)]. *)
Definition log_exception (e : exn) : M unit := emit (EvLog e).

(** The arguments of the [Cluster] call, each taken from the connection or,
    when its key is missing, from the local connection. *)
Definition cluster_arguments (connection : value) : result cluster_args :=
  let? local_hosts := dict_getitem get_local_connection "hosts" in
  let? hosts := conn_get connection "hosts" local_hosts in
  let? local_port := dict_getitem get_local_connection "port" in
  let? p := conn_get connection "port" local_port in
  let? local_lbp := dict_getitem get_local_connection "load_balancing_policy" in
  let? lbp := conn_get connection "load_balancing_policy" local_lbp in
  Ok {| contact_points := hosts; port := p; load_balancing_policy := lbp |}.

(** The body of the [try] in [exec_query]. *)
Definition exec_query_body (connection : value) (query_stmt : string)
    : M (list dict) :=
  a <- lift (cluster_arguments connection) ;;
  cluster <- new_cluster a ;;
  with_as (connect cluster "system_schema") session_exit
    (fun session => execute cluster session query_stmt).

(** The two [except] clauses of [exec_query], in their order. *)
Definition exec_query_handler (e : exn) : option (M (list dict)) :=
  match e with
  | NoHostAvailable _ => Some (log_exception e ;;; raise connect_failure)
  | PyException _ _ => Some (log_exception e ;;; raise e)
  | PyBaseException _ _ => None
  end.

Definition exec_query (connection : value) (query_stmt : string) : M (list dict) :=
  try_except (exec_query_body connection query_stmt) exec_query_handler.

End WithDriver.

Section WithBuiltinsAndDriver.
Context `{B : Builtins} `{D : Driver}.

(** [get_keyspace_configs] returns [{"keyspaces": keyspace_configs}]; the
    model carries the list of keyspace dictionaries and [keyspaces_doc] is
    the dictionary around it. *)
Definition keyspaces_doc (keyspace_configs : list dict) : value :=
  VDict [("keyspaces", VList (map VDict keyspace_configs))].

Definition get_keyspace_configs (connection : value) : M (list dict) :=
  rows <- exec_query connection "SELECT * FROM keyspaces" ;;
  lift (keyspace_rows rows []).

(** ["SELECT * FROM tables WHERE keyspace_name = '{}';".format(keyspace_name)] *)
Definition tables_query (keyspace_name : value) : string :=
  "SELECT * FROM tables WHERE keyspace_name = '" ++ py_str keyspace_name ++ "';".

Definition get_table_configs (connection : value) (keyspace_name : value)
    : M (list dict) :=
  rows <- exec_query connection (tables_query keyspace_name) ;;
  lift (table_rows rows []).

(** The loop of [get_current_config]: each keyspace dictionary of the list
    is updated in place, so the list that is returned holds the updated
    dictionaries. *)
Fixpoint attach_tables (connection : value) (keyspaces : list dict)
    : M (list dict) :=
  match keyspaces with
  | [] => ret []
  | ks :: rest =>
      tables <- get_table_configs connection (dict_get ks "name" VNone) ;;
      rest' <- attach_tables connection rest ;;
      ret (dict_set ks "tables" (VList (map VDict tables)) :: rest')
  end.

Definition get_current_config (connection : value) : M value :=
  let connection :=
    if negb (truthy connection) then VDict get_local_connection else connection in
  keyspaces <- get_keyspace_configs connection ;;
  keyspaces' <- attach_tables connection keyspaces ;;
  ret (keyspaces_doc keyspaces').

End WithBuiltinsAndDriver.

(** ** An interpreter instance for ASCII text

    [plain_builtins] follows the interpreter on ASCII input.  [int] takes
    an optionally signed run of digits, with single underscores between
    digits and blanks around, of at most 4300 digits.  [float] takes an
    optionally signed decimal with an optional point and exponent, or
    [inf], [infinity] or [nan] in any case, and rounds to the nearest
    binary64 number, ties to even.  [str] is given on [None], booleans,
    integers, [bytes] and UUIDs, and [lower] on ASCII letters.  Non-ASCII
    digits, blanks and letters, and [str] of the other values, are outside
    it; the theorems below hold for every [Builtins]. *)

Definition is_digit (c : ascii) : bool :=
  let n := nat_of_ascii c in ((48 <=? n) && (n <=? 57))%nat.

Definition digit_val (c : ascii) : Z := Z.of_nat (nat_of_ascii c - 48).

Definition is_blank (c : ascii) : bool :=
  let n := nat_of_ascii c in
  ((n =? 32) || ((9 <=? n) && (n <=? 13)))%nat.

Fixpoint lstrip (s : string) : string :=
  match s with
  | String c r => if is_blank c then lstrip r else s
  | EmptyString => EmptyString
  end.

Fixpoint rstrip (s : string) : string :=
  match s with
  | EmptyString => EmptyString
  | String c r =>
      match rstrip r with
      | EmptyString => if is_blank c then EmptyString else String c EmptyString
      | r' => String c r'
      end
  end.

Definition strip (s : string) : string := rstrip (lstrip s).

(** Digits with single underscores between them. *)
Fixpoint digits_value (acc : Z) (after_digit : bool) (s : string) : option Z :=
  match s with
  | EmptyString => if after_digit then Some acc else None
  | String c r =>
      if is_digit c then digits_value (10 * acc + digit_val c) true r
      else if Ascii.eqb c "_" then
        if after_digit then digits_value acc false r else None
      else None
  end.

Definition signed (body : string -> option Z) (s : string) : option (bool * Z) :=
  match s with
  | String "-" r => option_map (fun n => (true, n)) (body r)
  | String "+" r => option_map (fun n => (false, n)) (body r)
  | _ => option_map (fun n => (false, n)) (body s)
  end.

Fixpoint count_digits (s : string) : nat :=
  match s with
  | EmptyString => O
  | String c r => if is_digit c then S (count_digits r) else count_digits r
  end.

(** The interpreter's limit on the digits of an integer literal. *)
Definition max_str_digits : nat := 4300.

Definition plain_int (s : string) : option Z :=
  if (max_str_digits <? count_digits (strip s))%nat then None
  else
    option_map (fun sn : bool * Z => if fst sn then (- snd sn)%Z else snd sn)
      (signed (digits_value 0 false) (strip s)).

(** The longest run of digits, with single underscores between them, at
    the start of [s]: [acc] extended by the digits, [n] plus their number,
    and the rest of [s]. *)
Fixpoint scan_digits (acc : Z) (n : nat) (s : string) : Z * nat * string :=
  match s with
  | EmptyString => (acc, n, s)
  | String c r =>
      if is_digit c then scan_digits (10 * acc + digit_val c) (S n) r
      else if Ascii.eqb c "_" && (0 <? n)%nat then
        match r with
        | String c2 r2 =>
            if is_digit c2 then scan_digits (10 * acc + digit_val c2) (S n) r2
            else (acc, n, s)
        | EmptyString => (acc, n, s)
        end
      else (acc, n, s)
  end.

(** The exponent part: nothing, or [e] or [E], a sign and digits, up to
    the end of the string. *)
Definition scan_exponent (s : string) : option Z :=
  match s with
  | EmptyString => Some 0%Z
  | String c r =>
      if Ascii.eqb c "e" || Ascii.eqb c "E" then
        let (neg, digits) :=
          match r with
          | String "-" r' => (true, r')
          | String "+" r' => (false, r')
          | _ => (false, r)
          end in
        match scan_digits 0 0 digits with
        | (e, n, EmptyString) =>
            if (0 <? n)%nat then Some (if neg then (- e)%Z else e) else None
        | _ => None
        end
      else None
  end.

(** A decimal literal as the integer of its digits and a power of ten. *)
Definition scan_decimal (s : string) : option (Z * Z) :=
  match scan_digits 0 0 s with
  | (m1, n1, r1) =>
      let '(m2, n2, r2) :=
        match r1 with
        | String "." r => scan_digits m1 0 r
        | _ => (m1, O, r1)
        end in
      if (n1 + n2 =? 0)%nat then None
      else option_map (fun e => (m2, (e - Z.of_nat n2)%Z)) (scan_exponent r2)
  end.

(** The integer nearest to [n / d], the even one of two. *)
Definition round_half_even (n d : Z) : Z :=
  let q := (n / d)%Z in
  let r := (n mod d)%Z in
  match (2 * r ?= d)%Z with
  | Lt => q
  | Gt => (q + 1)%Z
  | Eq => if Z.even q then q else (q + 1)%Z
  end.

(** [n / (d * 2 ^ k)] as a fraction of integers. *)
Definition scale (n d k : Z) : Z * Z :=
  if (0 <=? k)%Z then (n, (d * 2 ^ k)%Z) else ((n * 2 ^ (- k))%Z, d).

(** The binary64 number nearest to [n / d], for positive [n] and [d]:
    53 bits of mantissa, fewer below the smallest exponent, infinity past
    the largest. *)
Definition binary64_of_ratio (neg : bool) (n d : Z) : spec_float :=
  let k1 := (Z.log2 n - Z.log2 d - 52)%Z in
  let (n1, d1) := scale n d k1 in
  let k2 := if (n1 / d1 <? 2 ^ 52)%Z then (k1 - 1)%Z else k1 in
  let k := Z.max k2 (-1074) in
  let (nk, dk) := scale n d k in
  let q := round_half_even nk dk in
  let (q', k') := if (q =? 2 ^ 53)%Z then ((2 ^ 52)%Z, (k + 1)%Z) else (q, k) in
  if (q' =? 0)%Z then S754_zero neg
  else if (971 <? k')%Z then S754_infinity neg
  else S754_finite neg (Z.to_pos q') k'.

(** [m * 10 ^ e] as a binary64 number; the two tests keep the powers of
    ten small: past them the value is beyond every finite number, or below
    half the smallest one. *)
Definition binary64_of_decimal (neg : bool) (m e : Z) : spec_float :=
  if (m =? 0)%Z then S754_zero neg
  else if (310 <? e)%Z then S754_infinity neg
  else if (e + (Z.log2 m + 1) / 3 + 1 <? -330)%Z then S754_zero neg
  else if (0 <=? e)%Z then binary64_of_ratio neg (m * 10 ^ e) 1
  else binary64_of_ratio neg m (10 ^ (- e)).

Fixpoint ascii_lower (s : string) : string :=
  match s with
  | EmptyString => EmptyString
  | String c r => String (lower_byte c) (ascii_lower r)
  end.

Definition unsigned_float (neg : bool) (s : string) : option spec_float :=
  let l := ascii_lower s in
  if String.eqb l "inf" || String.eqb l "infinity" then Some (S754_infinity neg)
  else if String.eqb l "nan" then Some S754_nan
  else option_map (fun me : Z * Z => binary64_of_decimal neg (fst me) (snd me))
         (scan_decimal s).

Definition plain_float (s : string) : option float :=
  option_map SF2Prim
    match strip s with
    | String "-" r => unsigned_float true r
    | String "+" r => unsigned_float false r
    | r => unsigned_float false r
    end.

Definition lower_char (c : ascii) : ascii :=
  let n := nat_of_ascii c in
  if ((65 <=? n) && (n <=? 90))%nat then ascii_of_nat (n + 32) else c.

Fixpoint plain_lower (s : string) : string :=
  match s with
  | EmptyString => EmptyString
  | String c r => String (lower_char c) (plain_lower r)
  end.

Fixpoint decimal_digits (fuel : nat) (n : Z) (acc : string) : string :=
  match fuel with
  | O => acc
  | S fuel' =>
      let acc' := String (ascii_of_nat (48 + Z.to_nat (n mod 10))) acc in
      if (n <? 10)%Z then acc' else decimal_digits fuel' (n / 10) acc'
  end.

Definition str_of_int (n : Z) : string :=
  if (n <? 0)%Z then String "-" (decimal_digits (S (Z.to_nat (Z.log2 (- n)))) (- n) "")
  else decimal_digits (S (Z.to_nat (Z.log2 n))) n "".

Definition hex_char (n : N) : ascii :=
  let k := N.to_nat n in
  if (k <? 10)%nat then ascii_of_nat (48 + k) else ascii_of_nat (87 + k).

(** The [len] hexadecimal digits of [u] from digit [len - 1] down to 0. *)
Fixpoint hex_digits (len : nat) (u : N) : string :=
  match len with
  | O => EmptyString
  | S len' =>
      String (hex_char (N.land (N.shiftr u (4 * N.of_nat len')) 15))
        (hex_digits len' u)
  end.

(** [str(uuid)]: the 32 hexadecimal digits in groups of 8-4-4-4-12. *)
Definition str_of_uuid (u : N) : string :=
  hex_digits 8 (N.shiftr u 96) ++ "-" ++ hex_digits 4 (N.shiftr u 80) ++ "-" ++
  hex_digits 4 (N.shiftr u 64) ++ "-" ++ hex_digits 4 (N.shiftr u 48) ++ "-" ++
  hex_digits 12 u.

Fixpoint has_byte (c : ascii) (b : string) : bool :=
  match b with
  | EmptyString => false
  | String c' r => Ascii.eqb c c' || has_byte c r
  end.

Definition backslash : ascii := ascii_of_nat 92.

(** One byte of [repr(b)] inside the quotes [q]. *)
Definition repr_byte (q c : ascii) : string :=
  let n := nat_of_ascii c in
  if Ascii.eqb c q || Ascii.eqb c backslash then String backslash (String c EmptyString)
  else if (n =? 9)%nat then String backslash "t"
  else if (n =? 10)%nat then String backslash "n"
  else if (n =? 13)%nat then String backslash "r"
  else if ((n <? 32) || (127 <=? n))%nat then
    String backslash
      (String "x" (String (hex_char (N.of_nat (n / 16)))
                     (String (hex_char (N.of_nat (n mod 16))) EmptyString)))
  else String c EmptyString.

Fixpoint repr_bytes (q : ascii) (b : string) : string :=
  match b with
  | EmptyString => EmptyString
  | String c r => (repr_byte q c ++ repr_bytes q r)%string
  end.

(** [str(b)] on [bytes] is [repr(b)]: in single quotes, or in double
    quotes when [b] holds a single quote and no double one. *)
Definition str_of_bytes (b : string) : string :=
  let single := ascii_of_nat 39 in
  let double := ascii_of_nat 34 in
  let q := if has_byte single b && negb (has_byte double b) then double else single in
  ("b" ++ String q (repr_bytes q b) ++ String q EmptyString)%string.

Definition plain_str_of (v : value) : string :=
  match v with
  | VNone => "None"
  | VBool true => "True"
  | VBool false => "False"
  | VInt n => str_of_int n
  | VBytes b => str_of_bytes b
  | VUUID u => str_of_uuid u
  | v => "<" ++ type_name v ++ ">"
  end.

#[export] Instance plain_builtins : Builtins := {
  py_int := plain_int;
  py_float := plain_float;
  py_str_of := plain_str_of;
  py_lower := plain_lower
}.

(** ** A small cluster to run the model on

    [demo_driver] answers for a cluster reachable at [localhost] only, whose
    catalog holds four keyspaces and, in [My_App], one table. *)

Definition simple_strategy (rf : string) : value :=
  VMap [("class", VStr "org.apache.cassandra.locator.SimpleStrategy");
        ("replication_factor", VStr rf)].

Definition demo_keyspaces : list dict :=
  [ [("keyspace_name", VStr "system_auth"); ("durable_writes", VBool true);
     ("replication", simple_strategy "1")];
    [("keyspace_name", VStr "My_App"); ("durable_writes", VBool true);
     ("replication",
      VMap [("class", VStr "org.apache.cassandra.locator.NetworkTopologyStrategy");
            ("dc1", VStr "2"); ("dc2", VStr "3")])];
    [("keyspace_name", VStr "system"); ("durable_writes", VBool true);
     ("replication",
      VMap [("class", VStr "org.apache.cassandra.locator.LocalStrategy")])];
    [("keyspace_name", VStr "System_Custom_App"); ("durable_writes", VBool false);
     ("replication", simple_strategy "3")] ].

Definition demo_table : dict :=
  [("keyspace_name", VStr "My_App");
   ("table_name", VStr "events");
   ("caching", VMap [("keys", VStr "ALL"); ("rows_per_partition", VStr "NONE")]);
   ("comment", VStr "");
   ("compaction",
    VMap [("class", VStr "org.apache.cassandra.db.compaction.SizeTieredCompactionStrategy");
          ("max_threshold", VStr "32"); ("min_threshold", VStr "4")]);
   ("crc_check_chance", VFloat 1);
   ("flags", VSortedSet [VStr "compound"]);
   ("gc_grace_seconds", VInt 864000);
   ("id", VUUID 0x5a1c395eb41f11e59f22ba0be0483c18)].

Definition is_localhost (hosts : value) : bool :=
  match hosts with
  | VList [VStr h] => String.eqb h "localhost"
  | _ => false
  end.

#[export] Instance demo_driver : Driver := {
  cluster_new := fun _ _ => None;
  cluster_connect := fun _ a _ =>
    if is_localhost (contact_points a) then None
    else Some (NoHostAvailable "Unable to connect to any servers");
  session_execute := fun _ _ stmt =>
    if String.eqb stmt "SELECT * FROM keyspaces" then Ok demo_keyspaces
    else if String.eqb stmt "SELECT * FROM tables WHERE keyspace_name = 'My_App';"
    then Ok [demo_table]
    else if String.prefix "SELECT * FROM tables WHERE keyspace_name = '" stmt
    then Ok []
    else Raise (PyException "SyntaxException" "line 1:0 no viable alternative at input")
}.

(** The run of [get_current_config] on that cluster from the empty trace:
    the keyspaces listed and the world after the keyspace query, the tables
    of [My_App] and the world after the table query. *)
Definition demo_listed : list dict :=
  Eval vm_compute in
    match fst (get_keyspace_configs (VDict get_local_connection) []) with
    | Ok l => l
    | Raise _ => []
    end.

Definition demo_world1 : world :=
  Eval vm_compute in snd (get_keyspace_configs (VDict get_local_connection) []).

Definition demo_tables : list dict :=
  Eval vm_compute in
    match fst (get_table_configs (VDict get_local_connection) (VStr "My_App")
                 demo_world1) with
    | Ok l => l
    | Raise _ => []
    end.

Definition demo_world2 : world :=
  Eval vm_compute in
    snd (get_table_configs (VDict get_local_connection) (VStr "My_App") demo_world1).

(** ** Properties stated in the words of the specification *)

Fixpoint has_dot (s : string) : bool :=
  match s with
  | EmptyString => false
  | String c r => Ascii.eqb c dot || has_dot r
  end.

(** [r] is [s] with everything up to and including its last ['.'] removed. *)
Definition after_last_dot (s r : string) : Prop :=
  has_dot r = false /\ (s = r \/ exists p, s = (p ++ "." ++ r)%string).

(** The keys of a replication map that name a data center. *)
Definition is_dc_key (key : string) : bool :=
  negb (String.eqb key "class") && negb (String.eqb key "replication_factor").

(** Every value stored under ["class"] in a map is text, as in the catalog's
    [map<text, text>] columns. *)
Definition class_is_text (v : value) : Prop :=
  forall m x, v = VMap m -> om_lookup "class" m = Some x -> is_str x = true.

(** A row of [system_schema.keyspaces]: an ordered dictionary (distinct
    keys) with the text column [keyspace_name], no column called [name] or
    [table_name], and text under ["class"] in [replication]. *)
Record keyspace_row (row : dict) (name : string) : Prop := {
  kr_keys : NoDup (dict_keys row);
  kr_keyspace_name : dict_lookup "keyspace_name" row = Some (VStr name);
  kr_no_name : dict_lookup "name" row = None;
  kr_no_table_name : dict_lookup "table_name" row = None;
  kr_replication :
    forall v, dict_lookup "replication" row = Some v -> class_is_text v
}.


Section SpecWords.
Context `{B : Builtins}.

(** A catalog row is listed unless its keyspace name, lower-cased, is
    ["system"] or starts with ["system_"]. *)
Definition is_listed (row : dict) : bool :=
  match dict_lookup "keyspace_name" row with
  | Some (VStr s) =>
      negb (String.eqb (py_lower s) "system" ||
            String.prefix "system_" (py_lower s))
  | _ => true
  end.

(** A name that does not lower-case to a system keyspace's. *)
Definition user_keyspace_name (ks : dict) : Prop :=
  exists s, dict_lookup "name" ks = Some (VStr s) /\
            py_lower s <> "system" /\
            String.prefix "system_" (py_lower s) = false.



End SpecWords.

(** Every session that a stretch of trace opens is shut down later in that
    stretch. *)
Definition closes_sessions (evs : list event) : Prop :=
  forall pre sid keyspace post,
    evs = pre ++ EvConnect sid keyspace :: post -> In (EvShutdown sid) post.

Section Runs.
Context `{B : Builtins} `{D : Driver}.

(** The calls of [get_table_configs] that [get_current_config] makes, one
    per keyspace in order, each in the world the one before left:
    [tables_run c kss w tss w'] when they return [tss] and end in [w']. *)
Inductive tables_run (c : value)
  : list dict -> world -> list (list dict) -> world -> Prop :=
| tables_run_nil w : tables_run c [] w [] w
| tables_run_cons ks kss w tables w1 tss w2 :
    get_table_configs c (dict_get ks "name" VNone) w = (Ok tables, w1) ->
    tables_run c kss w1 tss w2 ->
    tables_run c (ks :: kss) w (tables :: tss) w2.

End Runs.

(** ** The command-line entry point *)

(** [for x in v]: the values a loop over [v] visits; a dictionary or a map
    gives its keys, a string its characters (bytes here), [bytes] their
    numbers, and a value that cannot be iterated raises [TypeError]. *)
Definition py_iter (v : value) : result (list value) :=
  match v with
  | VList l | VSortedSet l => Ok l
  | VDict d | VMap d => Ok (map (fun kv => VStr (fst kv)) d)
  | VStr s => Ok (map (fun c => VStr (String c EmptyString)) (list_ascii_of_string s))
  | VBytes b => Ok (map (fun c => VInt (Z.of_nat (nat_of_ascii c))) (list_ascii_of_string b))
  | _ => Raise (PyException "TypeError"
                  ("'" ++ type_name v ++ "' object is not iterable"))
  end.

Definition newline : string := String (ascii_of_nat 10) EmptyString.
Definition tab : string := String (ascii_of_nat 9) EmptyString.

Section Main.
Context `{B : Builtins} `{D : Driver}.

(** The inner loop of [main]: one [print] per table; [out] is what has
    been printed so far, one string per call of [print]. *)
Fixpoint print_tables (tables : list value) (out : list string)
    : result unit * list string :=
  match tables with
  | [] => (Ok tt, out)
  | t :: rest =>
      match conn_get t "name" VNone with
      | Raise e => (Raise e, out)
      | Ok n => print_tables rest (out ++ [(tab ++ tab ++ "- " ++ py_str n)%string])
      end
  end.

(** The outer loop of [main]: three [print]s per keyspace, the second of
    which formats [ks.get("name", "")] again, then the tables. *)
Fixpoint print_keyspaces (keyspaces : list value) (out : list string)
    : result unit * list string :=
  match keyspaces with
  | [] => (Ok tt, out)
  | ks :: rest =>
      match conn_get ks "name" (VStr "") with
      | Raise e => (Raise e, out)
      | Ok n =>
          let out1 := out ++ [(newline ++ "Keyspace : " ++ py_str n)%string] in
          match conn_get ks "name" (VStr "") with
          | Raise e => (Raise e, out1)
          | Ok n' =>
              let out3 :=
                out1 ++ [("- durable_writes : " ++ py_str n')%string] ++ ["- Tables"] in
              match (let? ts := conn_get ks "tables" (VList []) in py_iter ts) with
              | Raise e => (Raise e, out3)
              | Ok tables =>
                  match print_tables tables out3 with
                  | (Raise e, out4) => (Raise e, out4)
                  | (Ok _, out4) => print_keyspaces rest out4
                  end
              end
          end
      end
  end.

(** [main]: the configuration is read first, then printed; the result
    pairs the outcome and the world with what was printed. *)
Definition main (w : world) : (result unit * world) * list string :=
  match get_current_config (VDict get_local_connection) w with
  | (Raise e, w1) => ((Raise e, w1), [])
  | (Ok config, w1) =>
      match (let? kss := conn_get config "keyspaces" (VList []) in py_iter kss) with
      | Raise e => ((Raise e, w1), [])
      | Ok keyspaces =>
          match print_keyspaces keyspaces [] with
          | (r, out) => ((r, w1), out)
          end
      end
  end.

(** What [main] prints for one keyspace of the configuration. *)
Definition keyspace_lines (ks : dict) : list string :=
  [(newline ++ "Keyspace : " ++ py_str (dict_get ks "name" (VStr "")))%string;
   ("- durable_writes : " ++ py_str (dict_get ks "name" (VStr "")))%string;
   "- Tables"] ++
  match dict_lookup "tables" ks with
  | Some (VList tables) =>
      map (fun t =>
             match t with
             | VDict td => (tab ++ tab ++ "- " ++ py_str (dict_get td "name" VNone))%string
             | _ => EmptyString
             end) tables
  | _ => []
  end.

End Main.

(** ** More clusters to run the model on *)

(** A cluster reachable at any address whose keyspace catalog is
    [keyspaces] and which has no tables. *)
Definition rows_driver (keyspaces : list dict) : Driver := {|
  cluster_new := fun _ _ => None;
  cluster_connect := fun _ _ _ => None;
  session_execute := fun _ _ stmt =>
    if String.eqb stmt "SELECT * FROM keyspaces" then Ok keyspaces else Ok []
|}.

Definition has_shutdown (w : world) : bool :=
  existsb (fun ev => match ev with EvShutdown _ => true | _ => false end) w.

(** The demo cluster, lost after the first session. *)
Definition flaky_driver : Driver := {|
  cluster_new := fun _ _ => None;
  cluster_connect := fun w _ _ =>
    if has_shutdown w then Some (NoHostAvailable "Unable to connect to any servers")
    else None;
  session_execute := fun _ _ stmt =>
    if String.eqb stmt "SELECT * FROM keyspaces" then Ok demo_keyspaces
    else Ok [demo_table]
|}.

(** A cluster whose statements are interrupted from the keyboard. *)
Definition interrupted_driver : Driver := {|
  cluster_new := fun _ _ => None;
  cluster_connect := fun _ _ _ => None;
  session_execute := fun _ _ _ => Raise (PyBaseException "KeyboardInterrupt" "")
|}.

(** ** Further properties, in words *)

(** What the generic normalizer stores for the item [kv] of a map: the
    entry [kv']. *)
Definition subconfig_entry `{B : Builtins} (kv kv' : string * value) : Prop :=
  fst kv' = fst kv /\
  (fst kv <> "class" -> snd kv' = convert_value (snd kv)) /\
  (fst kv = "class" ->
   exists s r, snd kv = VStr s /\ after_last_dot s r /\
               snd kv' = convert_value (VStr r)).

(** What a keyspace object holds for the column [kv] of the row: the
    entry [kv']. *)
Definition keyspace_field `{B : Builtins} (kv kv' : string * value) : Prop :=
  fst kv' = (if String.eqb (fst kv) "keyspace_name" then "name" else fst kv) /\
  (fst kv = "replication" -> get_replication_settings (snd kv) = Ok (snd kv')) /\
  (fst kv <> "replication" -> snd kv' = snd kv).

(** What [v.split(".")] raises when [v] is not a string. *)
Definition split_error (v : value) : exn :=
  match v with
  | VBytes _ => PyException "TypeError" "a bytes-like object is required, not 'str'"
  | _ => PyException "AttributeError"
           ("'" ++ type_name v ++ "' object has no attribute 'split'")
  end.

(** What the test of a keyspace name raises when the value under
    ["keyspace_name"] is [v] and not a string: [bytes] pass [lower] and
    fail in [startswith]; anything else has no [lower]. *)
Definition name_error (v : value) : exn :=
  match v with
  | VBytes _ =>
      PyException "TypeError"
        "startswith first arg must be bytes or a tuple of bytes, not str"
  | _ => PyException "AttributeError"
           ("'" ++ type_name v ++ "' object has no attribute 'lower'")
  end.

Definition attribute_or_type_error (e : exn) : Prop :=
  exists msg, e = PyException "AttributeError" msg \/
              e = PyException "TypeError" msg.

(** An event of a run of [exec_query] on the statement [q]. *)
Definition query_event (q : string) (ev : event) : Prop :=
  match ev with
  | EvExecute _ stmt => stmt = q
  | EvConnect _ keyspace => keyspace = "system_schema"
  | _ => True
  end.

(** An event that only reads the catalog. *)
Definition catalog_read (ev : event) : Prop :=
  match ev with
  | EvExecute _ stmt => String.prefix "SELECT * FROM " stmt = true
  | EvConnect _ keyspace => keyspace = "system_schema"
  | _ => True
  end.

Definition is_execute (ev : event) : bool :=
  match ev with EvExecute _ _ => true | _ => false end.

Definition is_log (ev : event) : bool :=
  match ev with EvLog _ => true | _ => false end.

(** A computation that, from any world, only reads the catalog and leaves
    open the sessions that were open. *)
Definition reads_catalog {A} (m : M A) : Prop :=
  forall w, exists r evs,
    m w = (r, w ++ evs) /\
    Forall catalog_read evs /\
    open_sessions (w ++ evs) = open_sessions w.

(** Values that have a [get] method. *)
Definition has_get (v : value) : bool :=
  match v with VDict _ | VMap _ => true | _ => false end.

(** * Theorems *)

(** ** Dictionaries *)

Lemma dict_lookup_set_same (d : dict) (k : string) (v : value) :
  dict_lookup k (dict_set d k v) = Some v.
Proof.
  induction d as [|[k' v'] d IH]; simpl.
  - now rewrite String.eqb_refl.
  - destruct (String.eqb k k') eqn:E; simpl; rewrite E; auto.
Qed.

Lemma dict_lookup_set_other (d : dict) (k k' : string) (v : value) :
  k <> k' -> dict_lookup k (dict_set d k' v) = dict_lookup k d.
Proof.
  intros Hne. induction d as [|[k0 v0] d IH]; simpl.
  - destruct (String.eqb_spec k k'); congruence.
  - destruct (String.eqb_spec k' k0); simpl.
    + subst k0. destruct (String.eqb_spec k k'); congruence.
    + destruct (String.eqb_spec k k0); auto.
Qed.

Lemma dict_set_fresh (d : dict) (k : string) (v : value) :
  dict_lookup k d = None -> dict_set d k v = d ++ [(k, v)].
Proof.
  induction d as [|[k' v'] d IH]; simpl; auto.
  destruct (String.eqb k k'); [discriminate|].
  intros H. now rewrite IH.
Qed.

Lemma dict_lookup_none (d : dict) (k : string) :
  dict_lookup k d = None <-> ~ In k (dict_keys d).
Proof.
  induction d as [|[k' v'] d IH]; simpl.
  - tauto.
  - destruct (String.eqb_spec k k').
    + subst. split; [discriminate | intros H; exfalso; apply H; auto].
    + rewrite IH. split; intros H; [intros [?|?]; [congruence | auto] | auto].
Qed.

Lemma dict_lookup_in (d : dict) (k : string) (v : value) :
  dict_lookup k d = Some v -> In (k, v) d.
Proof.
  induction d as [|[k' v'] d IH]; simpl; [discriminate|].
  destruct (String.eqb_spec k k'); intros H.
  - inversion H; subst; auto.
  - auto.
Qed.

Lemma dict_in_lookup (d : dict) (k : string) (v : value) :
  NoDup (dict_keys d) -> In (k, v) d -> dict_lookup k d = Some v.
Proof.
  induction d as [|[k' v'] d IH]; simpl; [tauto|].
  intros Hnd [Heq|Hin].
  - inversion Heq; subst. now rewrite String.eqb_refl.
  - inversion Hnd as [|? ? Hnotin Hnd']; subst.
    destruct (String.eqb_spec k k').
    + subst. exfalso. apply Hnotin. change (In (fst (k', v)) (map fst d)).
      now apply in_map.
    + auto.
Qed.

Lemma om_lookup_keys (m : dict) (k : string) :
  In k (om_keys m) -> exists v, om_lookup k m = Some v.
Proof.
  unfold om_lookup, om_keys. intros Hin.
  destruct (dict_lookup k (rev m)) eqn:E; [eauto|].
  apply dict_lookup_none in E. exfalso. apply E.
  unfold dict_keys. rewrite map_rev. now apply -> in_rev.
Qed.

(** ** Class names *)

Lemma split_on_shape (s : string) :
  match split_on dot s with
  | [] => False
  | [h] => s = h /\ has_dot h = false
  | _ :: t =>
      has_dot (last t EmptyString) = false /\
      exists p, s = (p ++ "." ++ last t EmptyString)%string
  end.
Proof.
  induction s as [|c s IH]; simpl.
  - auto.
  - destruct (Ascii.eqb c dot) eqn:E.
    + apply Ascii.eqb_eq in E. subst c.
      destruct (split_on dot s) as [|h [|h' t]]; [contradiction| |].
      * destruct IH as [-> Hd]. split; [exact Hd|]. now exists EmptyString.
      * destruct IH as [Hd [p Hp]]. split; [exact Hd|].
        exists (String dot p). simpl. now rewrite Hp.
    + destruct (split_on dot s) as [|h [|h' t]]; [contradiction| |].
      * destruct IH as [-> Hd]. simpl. now rewrite E.
      * destruct IH as [Hd [p Hp]]. split; [exact Hd|].
        exists (String c p). simpl. now rewrite Hp.
Qed.

Lemma get_class_name_str (s : string) :
  exists r, get_class_name (VStr s) = Ok (VStr r) /\ after_last_dot s r.
Proof.
  unfold get_class_name, after_last_dot.
  exists (last (split_on dot s) EmptyString). split; [reflexivity|].
  pose proof (split_on_shape s) as H.
  destruct (split_on dot s) as [|h [|h' t]]; [contradiction| |].
  - destruct H as [-> Hd]. simpl. auto.
  - destruct H as [Hd [p Hp]]. split; [exact Hd|]. right. now exists p.
Qed.

(** ** Value coercion *)

(** C2: [convert_value] gives the integer for a string that [int] accepts,
    the float for a string that [int] refuses and [float] accepts, the
    string itself when both refuse it, and any value that is not a string
    as it is. *)
Theorem convert_value_coercion `{B : Builtins} :
  (forall s n, py_int s = Some n -> convert_value (VStr s) = VInt n) /\
  (forall s f, py_int s = None -> py_float s = Some f ->
               convert_value (VStr s) = VFloat f) /\
  (forall s, py_int s = None -> py_float s = None ->
             convert_value (VStr s) = VStr s) /\
  (forall v, is_str v = false -> convert_value v = v).
Proof.
  repeat split.
  - intros s n Hi. unfold convert_value. simpl. now rewrite Hi.
  - intros s f Hi Hf. unfold convert_value. simpl. now rewrite Hi, Hf.
  - intros s Hi Hf. unfold convert_value. simpl. now rewrite Hi, Hf.
  - intros v Hv. unfold convert_value. now rewrite Hv.
Qed.

Lemma convert_value_coercion_witness :
  convert_value (VStr "1") = VInt 1 /\
  convert_value (VStr "2.0") = VFloat 2 /\
  convert_value (VStr "test") = VStr "test" /\
  convert_value (VList [VInt 1; VInt 2]) = VList [VInt 1; VInt 2].
Proof.
  destruct (@convert_value_coercion plain_builtins) as (Hint & Hfloat & Hstr & Hother).
  split; [apply Hint; reflexivity|].
  split; [apply Hfloat; reflexivity|].
  split; [apply Hstr; reflexivity|].
  apply Hother; reflexivity.
Defined.

(** ** The default connection *)

(** C5, as stated, fails: beside the hosts and the port the default
    connection holds a load balancing policy. *)
Lemma default_connection_not_only_hosts_and_port :
  ~ (dict_lookup "hosts" get_default_connection = Some (VList [VStr "localhost"]) /\
     dict_lookup "port" get_default_connection = Some (VInt 9042) /\
     dict_lookup "auth_provider" get_default_connection = None /\
     dict_lookup "ssl_context" get_default_connection = None /\
     forall k v, dict_lookup k get_default_connection = Some v ->
                 k = "hosts" \/ k = "port").
Proof.
  intros (_ & _ & _ & _ & Honly).
  destruct (Honly "load_balancing_policy" round_robin eq_refl); discriminate.
Qed.

(** C5, amended: the default connection holds the hosts [["localhost"]],
    the port 9042 and a round-robin load balancing policy, no auth provider,
    no TLS context, and nothing else. *)
Theorem default_connection_contents :
  get_default_connection = get_local_connection /\
  dict_keys get_default_connection = ["hosts"; "port"; "load_balancing_policy"] /\
  dict_lookup "hosts" get_default_connection = Some (VList [VStr "localhost"]) /\
  dict_lookup "port" get_default_connection = Some (VInt 9042) /\
  dict_lookup "load_balancing_policy" get_default_connection
    = Some (VObject "RoundRobinPolicy") /\
  dict_lookup "auth_provider" get_default_connection = None /\
  dict_lookup "ssl_context" get_default_connection = None.
Proof. repeat split. Qed.

(** ** Inputs that are not maps *)

(** C7: on an input that is not of the map type, both normalizers return
    the empty dictionary and raise nothing. *)
Theorem normalizers_empty_on_non_map `{B : Builtins} (v : value) :
  is_map v = false ->
  get_replication_settings v = Ok (VDict []) /\
  get_subconfig_settings v = Ok (VDict []).
Proof.
  intros Hv. unfold get_replication_settings, get_subconfig_settings.
  now rewrite Hv.
Qed.

Lemma normalizers_empty_on_non_map_witness :
  (get_replication_settings (VStr "SimpleStrategy") = Ok (VDict []) /\
   get_subconfig_settings (VStr "SimpleStrategy") = Ok (VDict [])) /\
  (get_replication_settings (VDict [("class", VStr "a.B")]) = Ok (VDict []) /\
   get_subconfig_settings (VDict [("class", VStr "a.B")]) = Ok (VDict [])).
Proof.
  split.
  - apply (@normalizers_empty_on_non_map plain_builtins (VStr "SimpleStrategy")).
    reflexivity.
  - apply (@normalizers_empty_on_non_map plain_builtins (VDict [("class", VStr "a.B")])).
    reflexivity.
Defined.

(** ** The replication normalizer *)

Lemma om_lookup_some_key (m : dict) (k : string) (v : value) :
  om_lookup k m = Some v -> In k (om_keys m).
Proof.
  unfold om_lookup, om_keys. intros H. apply dict_lookup_in in H.
  apply in_rev in H. change k with (fst (k, v)). now apply in_map.
Qed.

Lemma existsb_eqb_in (k : string) (ks : list string) :
  existsb (String.eqb k) ks = true <-> In k ks.
Proof.
  rewrite existsb_exists. split.
  - intros [x [Hin Heq]]. apply String.eqb_eq in Heq. now subst.
  - intros Hin. exists k. split; [exact Hin | apply String.eqb_refl].
Qed.

Section ReplicationLoop.
Context `{B : Builtins}.
Variable m : dict.
Hypothesis class_text : forall x, om_lookup "class" m = Some x -> is_str x = true.

Let class_of : option value :=
  match om_lookup "class" m with
  | Some (VStr s) => Some (VStr (last (split_on dot s) EmptyString))
  | _ => None
  end.

Let dc_entry (key : string) (e : value) : Prop :=
  exists v, om_lookup key m = Some v /\
            e = VDict [("name", VStr key); ("replication_factor", convert_value v)].

Lemma replication_loop_spec (keys : list string) :
  forall (repl_config : dict) (data_centers : list value),
  (forall k, In k keys -> exists v, om_lookup k m = Some v) ->
  exists rc new,
    replication_loop m keys repl_config data_centers = Ok (rc, data_centers ++ new) /\
    Forall2 dc_entry (filter is_dc_key keys) new /\
    dict_lookup "class" rc =
      (if existsb (String.eqb "class") keys then class_of
       else dict_lookup "class" repl_config) /\
    dict_lookup "replication_factor" rc =
      (if existsb (String.eqb "replication_factor") keys
       then option_map convert_value (om_lookup "replication_factor" m)
       else dict_lookup "replication_factor" repl_config) /\
    (forall k, k <> "class" -> k <> "replication_factor" ->
               dict_lookup k rc = dict_lookup k repl_config).
Proof.
  induction keys as [|key rest IH]; intros rc0 dcs Hkeys.
  - exists rc0, []. rewrite app_nil_r. simpl. repeat split; auto.
  - assert (Hrest : forall k, In k rest -> exists v, om_lookup k m = Some v)
      by (intros k Hk; apply Hkeys; now right).
    destruct (Hkeys key (or_introl eq_refl)) as [v Hv].
    cbn [replication_loop].
    destruct (String.eqb_spec key "class") as [->|Hnc].
    + unfold om_getitem. rewrite Hv. cbn [rbind].
      pose proof (class_text v Hv) as Hstr.
      destruct v; try discriminate Hstr. cbn [get_class_name rbind].
      destruct (IH (dict_set rc0 "class" (VStr (last (split_on dot s) EmptyString))) dcs Hrest)
        as (rc & new & Hrun & Hdcs & Hcls & Hrf & Hframe).
      exists rc, new. split; [exact Hrun|]. split; [exact Hdcs|].
      split; [|split].
      * rewrite Hcls. cbn [existsb]. rewrite String.eqb_refl. cbn [orb].
        rewrite dict_lookup_set_same. subst class_of. rewrite Hv.
        now destruct (existsb (String.eqb "class") rest).
      * rewrite Hrf. cbn [existsb].
        replace (String.eqb "replication_factor" "class") with false by reflexivity.
        cbn [orb]. rewrite dict_lookup_set_other by discriminate. reflexivity.
      * intros k Hk1 Hk2. rewrite Hframe by assumption.
        now apply dict_lookup_set_other.
    + destruct (String.eqb_spec key "replication_factor") as [->|Hnr].
      * unfold om_getitem. rewrite Hv. cbn [rbind].
        destruct (IH (dict_set rc0 "replication_factor" (convert_value v)) dcs Hrest)
          as (rc & new & Hrun & Hdcs & Hcls & Hrf & Hframe).
        exists rc, new. split; [exact Hrun|]. split; [exact Hdcs|].
        split; [|split].
        -- rewrite Hcls. cbn [existsb].
           replace (String.eqb "class" "replication_factor") with false by reflexivity.
           cbn [orb]. rewrite dict_lookup_set_other by discriminate. reflexivity.
        -- rewrite Hrf. cbn [existsb]. rewrite String.eqb_refl. cbn [orb].
           rewrite dict_lookup_set_same. rewrite Hv.
           now destruct (existsb (String.eqb "replication_factor") rest).
        -- intros k Hk1 Hk2. rewrite Hframe by assumption.
           now apply dict_lookup_set_other.
      * unfold om_getitem. rewrite Hv. cbn [rbind].
        destruct (IH rc0 (dcs ++ [data_center key v]) Hrest)
          as (rc & new & Hrun & Hdcs & Hcls & Hrf & Hframe).
        exists rc, (data_center key v :: new).
        split; [rewrite Hrun; now rewrite <- app_assoc|].
        assert (Hdc : is_dc_key key = true).
        { unfold is_dc_key.
          destruct (String.eqb_spec key "class"); [contradiction|].
          destruct (String.eqb_spec key "replication_factor"); [contradiction|].
          reflexivity. }
        split; [|split; [|split]].
        -- cbn [filter]. rewrite Hdc. constructor; [|exact Hdcs].
           exists v. split; [exact Hv | reflexivity].
        -- rewrite Hcls. cbn [existsb].
           destruct (String.eqb_spec "class" key); [congruence|]. reflexivity.
        -- rewrite Hrf. cbn [existsb].
           destruct (String.eqb_spec "replication_factor" key); [congruence|].
           reflexivity.
        -- exact Hframe.
Qed.

End ReplicationLoop.

(** C1, as stated, fails: a map without the key ["class"] is of the map
    type, and its output has no ["class"]. *)
Lemma replication_settings_without_class :
  exists out,
    get_replication_settings (VMap [("replication_factor", VStr "3")]) = Ok (VDict out) /\
    dict_lookup "class" out = None.
Proof.
  exists [("replication_factor", VInt 3); ("data_centers", VList [])].
  split; reflexivity.
Qed.

(** C1, amended: for a map whose ["class"] value, when it has one, is text,
    the normalizer returns a dictionary that holds ["data_centers"]; holds
    ["replication_factor"] exactly when the map has that key, with the
    coerced value; holds ["class"] exactly when the map has that key, with
    the class value cut after its last ['.']; holds nothing else; and lists
    under ["data_centers"], in the order of the map's keys, one entry
    [{name: key, replication_factor: coerced value}] per key other than
    ["class"] and ["replication_factor"]. *)
Theorem replication_settings_of_map `{B : Builtins} (m : dict) :
  (forall x, om_lookup "class" m = Some x -> is_str x = true) ->
  exists out dcs,
    get_replication_settings (VMap m) = Ok (VDict out) /\
    dict_lookup "data_centers" out = Some (VList dcs) /\
    Forall2
      (fun key e =>
         exists v, om_lookup key m = Some v /\
                   e = VDict [("name", VStr key);
                              ("replication_factor", convert_value v)])
      (filter (fun key => negb (String.eqb key "class") &&
                          negb (String.eqb key "replication_factor"))
              (om_keys m))
      dcs /\
    dict_lookup "replication_factor" out
      = option_map convert_value (om_lookup "replication_factor" m) /\
    (om_lookup "class" m = None -> dict_lookup "class" out = None) /\
    (forall s, om_lookup "class" m = Some (VStr s) ->
               exists r, dict_lookup "class" out = Some (VStr r) /\
                         after_last_dot s r) /\
    (forall k v, dict_lookup k out = Some v ->
                 k = "class" \/ k = "replication_factor" \/ k = "data_centers").
Proof.
  intros Hclass.
  destruct (replication_loop_spec m Hclass (om_keys m) [] [] (om_lookup_keys m))
    as (rc & new & Hrun & Hdcs & Hcls & Hrf & Hframe).
  cbn [app] in Hrun. cbn [dict_lookup] in Hcls, Hrf, Hframe.
  exists (dict_set rc "data_centers" (VList new)), new.
  split; [unfold get_replication_settings; cbn; rewrite Hrun; reflexivity|].
  split; [apply dict_lookup_set_same|].
  split; [exact Hdcs|].
  split; [|split; [|split]].
  - rewrite dict_lookup_set_other by discriminate. rewrite Hrf.
    destruct (existsb (String.eqb "replication_factor") (om_keys m)) eqn:E;
      [reflexivity|].
    destruct (om_lookup "replication_factor" m) eqn:E'; [|reflexivity].
    apply om_lookup_some_key, existsb_eqb_in in E'. congruence.
  - intros Hnone. rewrite dict_lookup_set_other by discriminate. rewrite Hcls.
    rewrite Hnone. now destruct (existsb _ _).
  - intros s Hs. rewrite dict_lookup_set_other by discriminate. rewrite Hcls.
    pose proof (om_lookup_some_key _ _ _ Hs) as Hin.
    apply existsb_eqb_in in Hin. rewrite Hin, Hs.
    destruct (get_class_name_str s) as (r & Hr & Hafter).
    exists r. split; [|exact Hafter].
    unfold get_class_name in Hr. now inversion Hr.
  - intros k v Hk.
    destruct (String.eqb_spec k "class"); [auto|].
    destruct (String.eqb_spec k "replication_factor"); [auto|].
    destruct (String.eqb_spec k "data_centers"); [auto|].
    rewrite dict_lookup_set_other in Hk by assumption.
    rewrite Hframe in Hk by assumption. discriminate.
Qed.

Lemma replication_settings_of_map_witness :
  exists out dcs,
    get_replication_settings
      (VMap [("class", VStr "org.apache.cassandra.locator.NetworkTopologyStrategy");
             ("dc1", VStr "2"); ("dc2", VStr "3")]) = Ok (VDict out) /\
    dict_lookup "data_centers" out = Some (VList dcs) /\
    List.length dcs = 2%nat /\
    dict_lookup "replication_factor" out = None.
Proof.
  destruct (@replication_settings_of_map plain_builtins
              [("class", VStr "org.apache.cassandra.locator.NetworkTopologyStrategy");
               ("dc1", VStr "2"); ("dc2", VStr "3")])
    as (out & dcs & Hrun & Hdc & Hall & Hrf & _).
  - intros x Hx. vm_compute in Hx. inversion Hx. reflexivity.
  - exists out, dcs. split; [exact Hrun|]. split; [exact Hdc|].
    split; [|exact Hrf].
    apply Forall2_length in Hall. symmetry. exact Hall.
Defined.

(** ** Totality of the normalizers on catalog maps *)

Lemma get_replication_settings_total `{B : Builtins} (v : value) :
  class_is_text v -> exists d, get_replication_settings v = Ok (VDict d).
Proof.
  intros Htext. destruct (is_map v) eqn:Hmap.
  - destruct v; try discriminate Hmap.
    destruct (replication_loop_spec m (fun x => Htext m x eq_refl)
                (om_keys m) [] [] (om_lookup_keys m))
      as (rc & new & Hrun & _).
    unfold get_replication_settings. cbn. rewrite Hrun. cbn. eauto.
  - exists []. unfold get_replication_settings. now rewrite Hmap.
Qed.




(** ** Renaming of keys *)

Lemma key_mapper_cases (k : string) :
  key_mapper k =
  if String.eqb k "keyspace_name" then "name"
  else if String.eqb k "table_name" then "name" else k.
Proof. reflexivity. Qed.

Lemma key_mapper_name (k : string) :
  key_mapper k = "name" -> k = "keyspace_name" \/ k = "table_name" \/ k = "name".
Proof.
  rewrite key_mapper_cases.
  destruct (String.eqb_spec k "keyspace_name"); [auto|].
  destruct (String.eqb_spec k "table_name"); auto.
Qed.

Lemma key_mapper_replication (k : string) :
  key_mapper k = "replication" -> k = "replication".
Proof.
  rewrite key_mapper_cases.
  destruct (String.eqb_spec k "keyspace_name"); [discriminate|].
  destruct (String.eqb_spec k "table_name"); [discriminate|auto].
Qed.

Lemma dict_in_key (d : dict) (k : string) (v : value) :
  In (k, v) d -> dict_lookup k d <> None.
Proof.
  intros Hin Hnone. apply dict_lookup_none in Hnone. apply Hnone.
  change k with (fst (k, v)). now apply in_map.
Qed.

(** ** Keyspaces *)

Section KeyspaceFields.
Context `{B : Builtins}.
Variable name : string.

Lemma keyspace_fields_spec (items : list (string * value)) :
  (forall k v, In (k, v) items -> key_mapper k = "name" -> v = VStr name) ->
  (forall v, In ("replication", v) items -> class_is_text v) ->
  forall ks, exists ks',
    keyspace_fields items ks = Ok ks' /\
    dict_lookup "name" ks' =
      if existsb (fun kv => String.eqb (key_mapper (fst kv)) "name") items
      then Some (VStr name) else dict_lookup "name" ks.
Proof.
  induction items as [|[k v] items IH]; intros Hname Hrepl ks.
  - now exists ks.
  - cbn [keyspace_fields existsb fst].
    assert (Hv' : exists v',
               (if String.eqb (key_mapper k) "replication"
                then get_replication_settings v else Ok v) = Ok v' /\
               (key_mapper k = "name" -> v' = VStr name)).
    { destruct (String.eqb_spec (key_mapper k) "replication") as [Hr|Hr].
      - apply key_mapper_replication in Hr as Hk. subst k.
        destruct (get_replication_settings_total v) as [d Hd];
          [apply Hrepl; now left|].
        exists (VDict d). split; [exact Hd|]. rewrite Hr. discriminate.
      - exists v. split; [reflexivity|].
        intros Hn. apply (Hname k v); [now left | exact Hn]. }
    destruct Hv' as (v' & Hrun & Hv'). rewrite Hrun. cbn [rbind].
    destruct (IH (fun k0 v0 H => Hname k0 v0 (or_intror H))
                 (fun v0 H => Hrepl v0 (or_intror H))
                 (dict_set ks (key_mapper k) v')) as (ks' & Hks' & Hlook).
    exists ks'. split; [exact Hks'|]. rewrite Hlook.
    destruct (existsb _ items); [now rewrite orb_true_r|].
    rewrite orb_false_r.
    destruct (String.eqb_spec (key_mapper k) "name") as [Hn|Hn].
    + rewrite Hn, dict_lookup_set_same, (Hv' Hn). reflexivity.
    + apply dict_lookup_set_other. congruence.
Qed.

Lemma keyspace_row_fields (row : dict) :
  keyspace_row row name ->
  exists ks, keyspace_fields row [] = Ok ks /\
             dict_lookup "name" ks = Some (VStr name).
Proof.
  intros [Hnd Hname Hno1 Hno2 Hrepl].
  destruct (keyspace_fields_spec row) with (ks := @nil (string * value))
    as (ks & Hrun & Hlook).
  - intros k v Hin Hk.
    destruct (key_mapper_name k Hk) as [Hk'|[Hk'|Hk']]; subst k.
    + pose proof (dict_in_lookup row _ _ Hnd Hin) as H. congruence.
    + now apply dict_in_key in Hin.
    + now apply dict_in_key in Hin.
  - intros v Hin. apply Hrepl. now apply dict_in_lookup.
  - exists ks. split; [exact Hrun|]. rewrite Hlook.
    replace (existsb _ row) with true; [reflexivity|].
    symmetry. apply existsb_exists. exists ("keyspace_name", VStr name).
    split; [now apply dict_lookup_in | reflexivity].
Qed.

End KeyspaceFields.

Lemma keyspace_rows_spec `{B : Builtins} (rows : list dict) :
  Forall (fun row => exists name, keyspace_row row name) rows ->
  forall acc, exists new,
    keyspace_rows rows acc = Ok (acc ++ new) /\
    Forall2 (fun row ks => dict_lookup "name" ks = dict_lookup "keyspace_name" row)
      (filter is_listed rows) new /\
    Forall user_keyspace_name new.
Proof.
  induction 1 as [|row rows [name Hrow] _ IH]; intros acc.
  - exists []. rewrite app_nil_r. repeat split; constructor.
  - cbn [keyspace_rows filter]. unfold is_listed at 1.
    pose proof (kr_keyspace_name _ _ Hrow) as Hname.
    unfold dict_get. rewrite Hname. cbn [lower_of system_test rbind].
    unfold is_system_keyspace, startswith.
    destruct (String.eqb (py_lower name) "system" ||
              String.prefix "system_" (py_lower name)) eqn:Hsys; cbn [negb].
    + apply IH.
    + destruct (keyspace_row_fields name row Hrow) as (ks & Hks & Hlook).
      rewrite Hks. cbn [rbind].
      destruct (IH (acc ++ [ks])) as (new & Hrun & Hnames & Huser).
      exists (ks :: new). rewrite Hrun, <- app_assoc.
      split; [reflexivity|]. split.
      * constructor; [congruence | exact Hnames].
      * constructor; [|exact Huser]. exists name.
        apply orb_false_iff in Hsys. destruct Hsys as [H1 H2].
        split; [exact Hlook|]. split; [|exact H2].
        now apply String.eqb_neq.
Qed.

(** C3: when the catalog query returns [rows], each a row of
    [system_schema.keyspaces], [get_keyspace_configs] returns, in order, one
    keyspace per row that is listed, that is, per row whose lower-cased name
    is neither ["system"] nor starts with ["system_"]; the keyspace's
    ["name"] is the row's ["keyspace_name"] as it was, and so no keyspace of
    the output has a name that lower-cases to a system keyspace's. *)
Theorem keyspace_configs_filter `{B : Builtins} `{D : Driver}
    (connection : value) (w : world) (rows : list dict) (w1 : world) :
  exec_query connection "SELECT * FROM keyspaces" w = (Ok rows, w1) ->
  Forall (fun row => exists name, keyspace_row row name) rows ->
  exists out,
    get_keyspace_configs connection w = (Ok out, w1) /\
    Forall2 (fun row ks => dict_lookup "name" ks = dict_lookup "keyspace_name" row)
      (filter is_listed rows) out /\
    Forall user_keyspace_name out.
Proof.
  intros Hq Hrows.
  destruct (keyspace_rows_spec rows Hrows []) as (out & Hrun & Hnames & Huser).
  exists out. split; [|split; assumption].
  unfold get_keyspace_configs, bind, lift. rewrite Hq. now rewrite Hrun.
Qed.

Ltac distinct_keys :=
  repeat (constructor; [cbn; intuition discriminate|]); constructor.

Ltac text_class :=
  let v := fresh "v" in let H := fresh "H" in
  let m := fresh "m" in let x := fresh "x" in
  let Hm := fresh "Hm" in let Hx := fresh "Hx" in
  intros v H; vm_compute in H; inversion H; subst v;
  intros m x Hm Hx; inversion Hm; subst m;
  vm_compute in Hx; inversion Hx; reflexivity.

Lemma demo_keyspace_rows :
  Forall (fun row => exists name, keyspace_row row name) demo_keyspaces.
Proof.
  repeat (constructor;
          [eexists; constructor;
           [distinct_keys | reflexivity | reflexivity | reflexivity | text_class]|]).
  constructor.
Defined.

Lemma keyspace_configs_filter_witness :
  exists out,
    fst (get_keyspace_configs (VDict get_local_connection) []) = Ok out /\
    Forall2 (fun row ks => dict_lookup "name" ks = dict_lookup "keyspace_name" row)
      (filter is_listed demo_keyspaces) out /\
    Forall user_keyspace_name out.
Proof.
  destruct (@keyspace_configs_filter plain_builtins demo_driver
              (VDict get_local_connection) [] demo_keyspaces
              (snd (exec_query (VDict get_local_connection)
                      "SELECT * FROM keyspaces" [])))
    as (out & Hrun & Hnames & Huser).
  - reflexivity.
  - exact demo_keyspace_rows.
  - exists out. rewrite Hrun. auto.
Defined.

(** ** Tables *)


Lemma NoDup_map_on {A C} (f : A -> C) (l : list A) :
  (forall x y, In x l -> In y l -> f x = f y -> x = y) ->
  NoDup l -> NoDup (map f l).
Proof.
  intros Hinj Hnd. induction Hnd as [|a l Hnotin Hnd IH]; cbn; constructor.
  - intros Hin. apply in_map_iff in Hin. destruct Hin as (y & Hfy & Hy).
    apply Hnotin. rewrite (Hinj a y); [exact Hy | now left | now right | congruence].
  - apply IH. intros x y Hx Hy. apply Hinj; now right.
Qed.

Section TableFields.
Context `{B : Builtins}.







End TableFields.





(** ** The query executor *)

Lemma fresh_sid_app (w1 w2 : world) :
  fresh_sid (w1 ++ w2) = Nat.max (fresh_sid w1) (fresh_sid w2).
Proof.
  induction w1 as [|ev w1 IH]; cbn [app fresh_sid]; [reflexivity|].
  destruct ev; rewrite ?IH; try reflexivity. lia.
Qed.

Lemma open_from_app (w1 w2 : world) :
  forall opened, open_from opened (w1 ++ w2) = open_from (open_from opened w1) w2.
Proof.
  induction w1 as [|ev w1 IH]; intros opened; cbn; [reflexivity|].
  destruct ev; apply IH.
Qed.

Lemma open_from_below (w : world) :
  forall opened n,
    (forall s, In s opened -> s < n) ->
    forall s, In s (open_from opened w) -> s < Nat.max n (fresh_sid w).
Proof.
  induction w as [|ev w IH]; intros opened n Hlt s Hs;
    cbn [open_from fresh_sid] in *.
  - specialize (Hlt s Hs). lia.
  - destruct ev; try (apply (IH opened n Hlt s Hs)).
    + assert (H : s < Nat.max (Nat.max n (S sid)) (fresh_sid w)).
      { apply (IH (opened ++ [sid])); [|exact Hs].
        intros s' Hs'. apply in_app_or in Hs'. destruct Hs' as [Hs'|[<-|[]]].
        - specialize (Hlt s' Hs'). lia.
        - lia. }
      lia.
    + apply (IH (remove Nat.eq_dec sid opened) n); [|exact Hs].
      intros s' Hs'. apply in_remove in Hs'. now apply Hlt.
Qed.

Lemma open_sessions_below (w : world) (s : nat) :
  In s (open_sessions w) -> s < fresh_sid w.
Proof.
  intros Hs. apply (open_from_below w [] 0) in Hs; [lia | contradiction].
Qed.

Lemma remove_last_fresh (x : nat) (l : list nat) :
  ~ In x l -> remove Nat.eq_dec x (l ++ [x]) = l.
Proof.
  intros Hx. rewrite remove_app. cbn.
  destruct (Nat.eq_dec x x); [|contradiction].
  rewrite app_nil_r. now apply notin_remove.
Qed.

Section ExecQuery.
Context `{D : Driver}.
Variables (connection : value) (query_stmt : string) (w : world).

(** The events of a run that reaches the session: the [Cluster] call, the
    session, the statement and the shutdown of the session. *)
Let session_events (a : cluster_args) : list event :=
  [EvCluster a;
   EvConnect (fresh_sid (w ++ [EvCluster a])) "system_schema";
   EvExecute (fresh_sid (w ++ [EvCluster a])) query_stmt;
   EvShutdown (fresh_sid (w ++ [EvCluster a]))].

(** The events of one run of the [try] body: none when the connection
    has no [get], the [Cluster] call alone when the constructor or
    [connect] raises, and otherwise the events of the session. *)
Lemma exec_query_body_shape :
  exists r evs,
    exec_query_body connection query_stmt w = (r, w ++ evs) /\
    ((evs = [] /\ (exists e, r = Raise e) /\
      exists e, cluster_arguments connection = Raise e) \/
     exists a,
       cluster_arguments connection = Ok a /\
       ((evs = [EvCluster a] /\ exists e, r = Raise e) \/
        evs = session_events a)).
Proof.
  unfold exec_query_body, bind, lift.
  destruct (cluster_arguments connection) as [a|e] eqn:Hargs.
  - unfold new_cluster, bind, emit.
    destruct (cluster_new (w ++ [EvCluster a]) a) as [e|] eqn:Hnew.
    + exists (Raise e), [EvCluster a]. split; [reflexivity|].
      right. exists a. split; [reflexivity|]. left. eauto.
    + unfold with_as, connect.
      destruct (cluster_connect (w ++ [EvCluster a]) a "system_schema")
        as [e|] eqn:Hconn.
      * exists (Raise e), [EvCluster a]. split; [reflexivity|].
        right. exists a. split; [reflexivity|]. left. eauto.
      * unfold execute, bind, emit, session_exit, emit.
        eexists _, _. split.
        -- rewrite <- !app_assoc. cbn [app]. reflexivity.
        -- right. exists a. split; [reflexivity|]. right. reflexivity.
  - exists (Raise e), []. rewrite app_nil_r. split; [reflexivity|]. left. eauto.
Qed.

(** What [exec_query] makes of a run of the body. *)
Lemma exec_query_of_body (r : result (list dict)) (w1 : world) :
  exec_query_body connection query_stmt w = (r, w1) ->
  exec_query connection query_stmt w =
  match r with
  | Ok rows => (Ok rows, w1)
  | Raise (NoHostAvailable diag) =>
      (Raise connect_failure, w1 ++ [EvLog (NoHostAvailable diag)])
  | Raise (PyException cls msg) =>
      (Raise (PyException cls msg), w1 ++ [EvLog (PyException cls msg)])
  | Raise (PyBaseException cls msg) => (Raise (PyBaseException cls msg), w1)
  end.
Proof.
  intros Hbody. unfold exec_query, try_except. rewrite Hbody.
  destruct r as [rows|[diag|cls msg|cls msg]]; reflexivity.
Qed.

Lemma exec_query_shape :
  exists r evs logs,
    exec_query connection query_stmt w = (r, w ++ evs ++ logs) /\
    (logs = [] \/ ((exists e, logs = [EvLog e]) /\ exists e, r = Raise e)) /\
    ((evs = [] /\ (exists e, r = Raise e) /\
      exists e, cluster_arguments connection = Raise e) \/
     exists a,
       cluster_arguments connection = Ok a /\
       ((evs = [EvCluster a] /\ exists e, r = Raise e) \/
        evs = session_events a)).
Proof.
  destruct exec_query_body_shape as (r & evs & Hbody & Hshape).
  rewrite (exec_query_of_body _ _ Hbody).
  destruct r as [rows|[diag|cls msg|cls msg]].
  - exists (Ok rows), evs, []. rewrite app_nil_r. auto.
  - eexists _, evs, _. rewrite <- app_assoc. split; [reflexivity|].
    split; [right; eauto|].
    destruct Hshape as [(-> & _ & He)|(a & Ha & [[-> _]| ->])]; eauto 10.
  - eexists _, evs, _. rewrite <- app_assoc. split; [reflexivity|].
    split; [right; eauto|].
    destruct Hshape as [(-> & _ & He)|(a & Ha & [[-> _]| ->])]; eauto 10.
  - eexists _, evs, []. rewrite app_nil_r. auto.
Qed.

(** A run that reaches the session opens one and leaves none open. *)
Lemma session_events_closed (a : cluster_args) (logs : list event) :
  (logs = [] \/ exists e, logs = [EvLog e]) ->
  closes_sessions (session_events a ++ logs) /\
  open_from (open_sessions w) (session_events a ++ logs) = open_sessions w.
Proof.
  intros Hlogs. split.
  - intros pre sid keyspace post Heq. subst session_events. cbn [app] in Heq.
    destruct pre as [|ev0 pre]; cbn [app] in Heq; [discriminate|].
    injection Heq as _ Heq.
    destruct pre as [|ev1 pre]; cbn [app] in Heq.
    { injection Heq as <- _ <-. right. now left. }
    injection Heq as _ Heq.
    destruct pre as [|ev2 pre]; cbn [app] in Heq; [discriminate|].
    injection Heq as _ Heq.
    destruct pre as [|ev3 pre]; cbn [app] in Heq; [discriminate|].
    injection Heq as _ Heq.
    destruct Hlogs as [->|[e ->]].
    + destruct pre; discriminate.
    + destruct pre as [|ev4 pre]; cbn [app] in Heq; [discriminate|].
      injection Heq as _ Heq. destruct pre; discriminate.
  - assert (Hfresh : ~ In (fresh_sid (w ++ [EvCluster a])) (open_sessions w)).
    { intros Hin. apply open_sessions_below in Hin.
      rewrite fresh_sid_app in Hin. lia. }
    subst session_events.
    destruct Hlogs as [->|[e ->]]; cbn [app open_from];
      now rewrite remove_last_fresh.
Qed.

End ExecQuery.

(** C6: when the attempt raises [NoHostAvailable], [exec_query] logs that
    exception and raises the generic exception, whose message is fixed and
    so carries nothing of the diagnostic; when the attempt raises any other
    exception derived from [Exception], it logs it and raises the same
    exception; in both cases nothing else happens after the failure.  In
    particular a [connect] that finds no host ends in the generic
    exception. *)
Theorem exec_query_errors `{D : Driver}
    (connection : value) (query_stmt : string) (w : world) :
  (forall diag w1,
     exec_query_body connection query_stmt w = (Raise (NoHostAvailable diag), w1) ->
     exec_query connection query_stmt w =
       (Raise (PyException "Exception"
                 "Failed to connect to Cassandra. See log for details."),
        w1 ++ [EvLog (NoHostAvailable diag)])) /\
  (forall cls msg w1,
     exec_query_body connection query_stmt w = (Raise (PyException cls msg), w1) ->
     exec_query connection query_stmt w =
       (Raise (PyException cls msg), w1 ++ [EvLog (PyException cls msg)])) /\
  (forall a diag,
     cluster_arguments connection = Ok a ->
     cluster_new (w ++ [EvCluster a]) a = None ->
     cluster_connect (w ++ [EvCluster a]) a "system_schema"
       = Some (NoHostAvailable diag) ->
     exec_query connection query_stmt w =
       (Raise (PyException "Exception"
                 "Failed to connect to Cassandra. See log for details."),
        w ++ [EvCluster a; EvLog (NoHostAvailable diag)])).
Proof.
  split; [|split].
  - intros diag w1 Hbody.
    now rewrite (exec_query_of_body _ _ _ _ _ Hbody).
  - intros cls msg w1 Hbody.
    now rewrite (exec_query_of_body _ _ _ _ _ Hbody).
  - intros a diag Hargs Hnew Hconn.
    rewrite (exec_query_of_body connection query_stmt w
               (Raise (NoHostAvailable diag)) (w ++ [EvCluster a])).
    + now rewrite <- app_assoc.
    + unfold exec_query_body, bind, lift. rewrite Hargs.
      unfold new_cluster, bind, emit. rewrite Hnew.
      unfold with_as, connect. now rewrite Hconn.
Qed.

Lemma exec_query_errors_witness :
  exec_query (VDict [("hosts", VList [VStr "127.0.0.2"])])
    "SELECT * FROM keyspaces" []
  = (Raise (PyException "Exception"
              "Failed to connect to Cassandra. See log for details."),
     [EvCluster {| contact_points := VList [VStr "127.0.0.2"];
                   port := VInt 9042;
                   load_balancing_policy := VObject "RoundRobinPolicy" |};
      EvLog (NoHostAvailable "Unable to connect to any servers")]) /\
  fst (exec_query (VDict []) "SELECT" [])
  = Raise (PyException "SyntaxException" "line 1:0 no viable alternative at input").
Proof.
  destruct (@exec_query_errors demo_driver
              (VDict [("hosts", VList [VStr "127.0.0.2"])])
              "SELECT * FROM keyspaces" []) as (_ & _ & Hconnect).
  destruct (@exec_query_errors demo_driver (VDict []) "SELECT" [])
    as (_ & Hother & _).
  split.
  - apply (Hconnect _ "Unable to connect to any servers"); reflexivity.
  - rewrite (Hother "SyntaxException" "line 1:0 no viable alternative at input"
               (snd (exec_query_body (VDict []) "SELECT" []))); reflexivity.
Defined.



(** ** Defaults of the connection *)

Lemma exec_query_extends `{D : Driver} (connection : value) (q : string) (w : world) :
  exists r evs, exec_query connection q w = (r, w ++ evs).
Proof.
  destruct (exec_query_shape connection q w) as (r & evs & logs & Hrun & _).
  now exists r, (evs ++ logs).
Qed.

Lemma exec_query_dict_trace `{D : Driver} (d : dict) (q : string) (w : world) :
  exists r rest,
    exec_query (VDict d) q w =
    (r, w ++ EvCluster
               {| contact_points := dict_get d "hosts" (VList [VStr "localhost"]);
                  port := dict_get d "port" (VInt 9042);
                  load_balancing_policy :=
                    dict_get d "load_balancing_policy" round_robin |} :: rest).
Proof.
  destruct (exec_query_shape (VDict d) q w) as (r & evs & logs & Hrun & _ & Hshape).
  destruct Hshape as [(_ & _ & e & He)|(a & Ha & Hevs)]; [discriminate He|].
  injection Ha as <-. exists r.
  destruct Hevs as [[-> _]| ->]; eexists; rewrite Hrun; cbn [app]; reflexivity.
Qed.

Section Extends.
Context `{B : Builtins} `{D : Driver}.

Lemma get_table_configs_extends (c name : value) (w : world) :
  exists r evs, get_table_configs c name w = (r, w ++ evs).
Proof.
  unfold get_table_configs, bind, lift.
  destruct (exec_query_extends c (tables_query name) w) as (r & evs & ->).
  destruct r; eauto.
Qed.

Lemma attach_tables_extends (c : value) (keyspaces : list dict) :
  forall w, exists r evs, attach_tables c keyspaces w = (r, w ++ evs).
Proof.
  induction keyspaces as [|ks rest IH]; intros w; cbn [attach_tables].
  - exists (Ok []), []. now rewrite app_nil_r.
  - unfold bind.
    destruct (get_table_configs_extends c (dict_get ks "name" VNone) w)
      as (r & evs & ->).
    destruct r as [tables|e]; [|eauto].
    destruct (IH (w ++ evs)) as (r' & evs' & ->).
    rewrite <- app_assoc. destruct r'; unfold ret; eauto.
Qed.

Lemma get_current_config_dict_trace (d : dict) (w : world) :
  truthy (VDict d) = true ->
  exists r rest,
    get_current_config (VDict d) w =
    (r, w ++ EvCluster
               {| contact_points := dict_get d "hosts" (VList [VStr "localhost"]);
                  port := dict_get d "port" (VInt 9042);
                  load_balancing_policy :=
                    dict_get d "load_balancing_policy" round_robin |} :: rest).
Proof.
  intros Ht. unfold get_current_config. rewrite Ht. cbn [negb].
  unfold get_keyspace_configs, bind, lift.
  destruct (exec_query_dict_trace d "SELECT * FROM keyspaces" w) as (r & rest & ->).
  destruct r as [rows|e]; [|eauto].
  destruct (keyspace_rows rows []) as [kss|e]; [|eauto].
  match goal with
  | |- context [attach_tables ?c kss ?w1] =>
      destruct (attach_tables_extends c kss w1) as (r' & evs & ->)
  end.
  rewrite <- app_assoc. cbn [app]. destruct r'; unfold ret; eauto.
Qed.

End Extends.

(** C10: a connection that is absent or falsy is replaced by the local
    connection, so [get_current_config] builds its [Cluster] from
    [["localhost"]], 9042 and the round-robin policy; and for a connection
    dictionary [exec_query] raises nothing on a missing key: it builds the
    [Cluster] with, for each of ["hosts"], ["port"] and
    ["load_balancing_policy"], the dictionary's value when the key is there
    and the local default when it is not. *)
Theorem missing_connection_defaults `{B : Builtins} `{D : Driver} :
  (forall connection w,
     truthy connection = false ->
     get_current_config connection w
       = get_current_config (VDict get_local_connection) w /\
     exists r rest,
       get_current_config connection w =
       (r, w ++ EvCluster
                  {| contact_points := VList [VStr "localhost"];
                     port := VInt 9042;
                     load_balancing_policy := VObject "RoundRobinPolicy" |}
               :: rest)) /\
  (forall d query_stmt w,
     exists r rest,
       exec_query (VDict d) query_stmt w =
       (r, w ++ EvCluster
                  {| contact_points :=
                       match dict_lookup "hosts" d with
                       | Some v => v
                       | None => VList [VStr "localhost"]
                       end;
                     port :=
                       match dict_lookup "port" d with
                       | Some v => v
                       | None => VInt 9042
                       end;
                     load_balancing_policy :=
                       match dict_lookup "load_balancing_policy" d with
                       | Some v => v
                       | None => VObject "RoundRobinPolicy"
                       end |}
               :: rest)).
Proof.
  split.
  - intros connection w Hfalsy.
    assert (Heq : get_current_config connection w
                  = get_current_config (VDict get_local_connection) w).
    { unfold get_current_config. rewrite Hfalsy. reflexivity. }
    split; [exact Heq|]. rewrite Heq.
    apply (get_current_config_dict_trace get_local_connection w). reflexivity.
  - intros d q w. apply exec_query_dict_trace.
Qed.

Lemma missing_connection_defaults_witness :
  get_current_config VNone [] = get_current_config (VDict get_local_connection) [] /\
  get_current_config (VDict []) [] = get_current_config (VDict get_local_connection) [] /\
  exists r rest,
    exec_query (VDict [("port", VInt 9043)]) "SELECT * FROM keyspaces" [] =
    (r, EvCluster {| contact_points := VList [VStr "localhost"];
                     port := VInt 9043;
                     load_balancing_policy := VObject "RoundRobinPolicy" |}
        :: rest).
Proof.
  destruct (@missing_connection_defaults plain_builtins demo_driver) as [Hfalsy Hdict].
  split; [apply (Hfalsy VNone []); reflexivity|].
  split; [apply (Hfalsy (VDict []) []); reflexivity|].
  exact (Hdict [("port", VInt 9043)] "SELECT * FROM keyspaces" []).
Defined.

(** ** The whole configuration *)

Section CurrentConfig.
Context `{B : Builtins} `{D : Driver}.

Lemma attach_tables_run (c : value) (keyspaces : list dict) (w : world)
    (tss : list (list dict)) (w2 : world) :
  tables_run c keyspaces w tss w2 ->
  attach_tables c keyspaces w =
  (Ok (map (fun p => dict_set (fst p) "tables" (VList (map VDict (snd p))))
           (combine keyspaces tss)), w2) /\
  List.length tss = List.length keyspaces.
Proof.
  induction 1 as [w|ks kss w tables w1 tss w2 Hcall _ [IH Hlen]].
  - split; reflexivity.
  - cbn [attach_tables]. unfold bind. rewrite Hcall, IH. unfold ret.
    split; [reflexivity | cbn; now rewrite Hlen].
Qed.

End CurrentConfig.

(** C8: when [get_keyspace_configs] returns the keyspaces [kss] and the
    calls of [get_table_configs], one per keyspace name in order, return
    [tss], [get_current_config] returns [{"keyspaces": out}] where [out] is
    [kss] with, in each keyspace, ["tables"] set to the tables returned for
    its name and every other field as it was. *)
Theorem current_config_attaches_tables `{B : Builtins} `{D : Driver}
    (connection : value) (w : world) (kss : list dict) (w1 : world)
    (tss : list (list dict)) (w2 : world) :
  get_keyspace_configs
    (if truthy connection then connection else VDict get_local_connection) w
    = (Ok kss, w1) ->
  tables_run
    (if truthy connection then connection else VDict get_local_connection)
    kss w1 tss w2 ->
  exists out,
    get_current_config connection w
      = (Ok (VDict [("keyspaces", VList (map VDict out))]), w2) /\
    out = map (fun p => dict_set (fst p) "tables" (VList (map VDict (snd p))))
              (combine kss tss) /\
    List.length out = List.length kss /\
    Forall2 (fun ks o => forall k, k <> "tables" ->
                                   dict_lookup k o = dict_lookup k ks) kss out /\
    Forall2 (fun tables o =>
               dict_lookup "tables" o = Some (VList (map VDict tables))) tss out.
Proof.
  intros Hks Hrun.
  destruct (attach_tables_run _ _ _ _ _ Hrun) as [Hattach Hlen].
  eexists. split.
  - unfold get_current_config, bind.
    destruct (truthy connection); cbn [negb]; rewrite Hks, Hattach; reflexivity.
  - split; [reflexivity|].
    clear Hks Hattach Hrun. revert tss Hlen.
    induction kss as [|ks kss IH]; intros [|tables tss] Hlen; try discriminate Hlen.
    + repeat split; constructor.
    + destruct (IH tss) as (Hl & Hframe & Htables); [now injection Hlen|].
      cbn [combine map List.length fst snd]. split; [now rewrite Hl|].
      split; constructor; auto.
      * intros k Hk. now apply dict_lookup_set_other.
      * apply dict_lookup_set_same.
Qed.

Lemma current_config_attaches_tables_witness :
  exists out,
    get_current_config VNone []
      = (Ok (VDict [("keyspaces", VList (map VDict out))]), demo_world2) /\
    out = [dict_set (hd [] demo_listed) "tables" (VList (map VDict demo_tables))] /\
    Forall2 (fun tables o =>
               dict_lookup "tables" o = Some (VList (map VDict tables)))
      [demo_tables] out.
Proof.
  destruct (@current_config_attaches_tables plain_builtins demo_driver
              VNone [] demo_listed demo_world1 [demo_tables] demo_world2)
    as (out & Hrun & Hout & _ & _ & Htables).
  - reflexivity.
  - apply (tables_run_cons _ (hd [] demo_listed) [] demo_world1 demo_tables
             demo_world2 [] demo_world2); [reflexivity | constructor].
  - exists out. split; [exact Hrun|]. split; [exact Hout | exact Htables].
Defined.

(** * Further properties of the code *)

(** ** Class names and coercion *)

Lemma has_dot_app (p r : string) :
  has_dot (p ++ "." ++ r)%string = true.
Proof.
  induction p as [|c p IH]; simpl; [reflexivity|].
  simpl in IH. rewrite IH. apply orb_true_r.
Qed.

Lemma split_on_no_dot (s : string) :
  has_dot s = false -> split_on dot s = [s].
Proof.
  induction s as [|c s IH]; cbn; [reflexivity|].
  intros H. apply orb_false_iff in H. destruct H as [Hc Hs].
  rewrite Hc, (IH Hs). reflexivity.
Qed.

(** X1: on a string, [get_class_name] returns what follows the last
    ['.'], which holds no ['.']; a name without ['.'] comes back as it is,
    and so does the result when it is given again. *)
Theorem get_class_name_last_component (s : string) :
  exists r,
    get_class_name (VStr s) = Ok (VStr r) /\
    after_last_dot s r /\
    (has_dot s = false -> r = s) /\
    get_class_name (VStr r) = Ok (VStr r).
Proof.
  destruct (get_class_name_str s) as (r & Hrun & Hafter).
  exists r. split; [exact Hrun|]. split; [exact Hafter|].
  destruct Hafter as [Hdot Hsuffix]. split.
  - intros Hs. destruct Hsuffix as [->|[p ->]]; [reflexivity|].
    rewrite has_dot_app in Hs. discriminate.
  - unfold get_class_name. now rewrite (split_on_no_dot r Hdot).
Qed.

(** X2: coercing twice is coercing once, and a string that
    [convert_value] returns is one that neither [int] nor [float] accepts. *)
Theorem convert_value_idempotent `{B : Builtins} (v : value) :
  convert_value (convert_value v) = convert_value v /\
  (forall s, convert_value v = VStr s -> py_int s = None /\ py_float s = None).
Proof.
  destruct v; try (split; [reflexivity | discriminate]).
  unfold convert_value. cbn [is_str negb].
  destruct (py_int s) eqn:Hi; [split; [reflexivity | discriminate]|].
  destruct (py_float s) eqn:Hf; [split; [reflexivity | discriminate]|].
  split.
  - cbn [is_str negb]. now rewrite Hi, Hf.
  - intros s' Hs'. injection Hs' as <-. auto.
Qed.

(** ** The generic normalizer on a map *)

Lemma om_lookup_in_distinct (m : dict) (k : string) (v : value) :
  NoDup (om_keys m) -> In (k, v) m -> om_lookup k m = Some v.
Proof.
  intros Hnd Hin. unfold om_lookup. apply dict_in_lookup.
  - unfold dict_keys. rewrite map_rev. now apply NoDup_rev.
  - now apply -> in_rev.
Qed.

Lemma om_items_of_distinct (m : dict) :
  NoDup (om_keys m) ->
  forall l, incl l m -> om_items_of m (map fst l) = Ok l.
Proof.
  intros Hnd. induction l as [|[k v] l IH]; intros Hincl; cbn; [reflexivity|].
  unfold om_getitem.
  rewrite (om_lookup_in_distinct m k v Hnd) by (apply Hincl; now left).
  cbn. rewrite IH by (intros x Hx; apply Hincl; now right). reflexivity.
Qed.

Lemma subconfig_loop_spec `{B : Builtins} (items : list (string * value)) :
  (forall v, In ("class", v) items -> is_str v = true) ->
  forall settings,
  NoDup (dict_keys settings ++ map fst items) ->
  exists new,
    subconfig_loop items settings = Ok (settings ++ new) /\
    Forall2 subconfig_entry items new.
Proof.
  induction items as [|[k v] items IH]; intros Htext settings Hnd.
  - exists []. rewrite app_nil_r. split; [reflexivity | constructor].
  - cbn [subconfig_loop].
    assert (Hv' : exists v',
              (if String.eqb k "class" then get_class_name v else Ok v) = Ok v' /\
              subconfig_entry (k, v) (k, convert_value v')).
    { destruct (String.eqb_spec k "class") as [->|Hk].
      - pose proof (Htext v (or_introl eq_refl)) as Hs.
        destruct v; try discriminate Hs.
        destruct (get_class_name_str s) as (r & Hr & Hafter).
        exists (VStr r). split; [exact Hr|].
        split; [reflexivity|]. split; [intros H; now contradiction H|].
        intros _. now exists s, r.
      - exists v. split; [reflexivity|].
        split; [reflexivity|]. split; [reflexivity | intros H; contradiction]. }
    destruct Hv' as (v' & Hrun & Hentry). rewrite Hrun. cbn [rbind].
    cbn [map fst] in Hnd.
    assert (Hfresh : dict_lookup k settings = None).
    { apply dict_lookup_none. intros Hin.
      apply NoDup_remove_2 in Hnd. apply Hnd. apply in_or_app. now left. }
    rewrite (dict_set_fresh _ _ _ Hfresh).
    destruct (IH (fun x H => Htext x (or_intror H))
                 (settings ++ [(k, convert_value v')])) as (new & Hnew & Hall).
    { unfold dict_keys. rewrite map_app. cbn [map fst].
      rewrite <- app_assoc. exact Hnd. }
    exists ((k, convert_value v') :: new). rewrite Hnew, <- app_assoc.
    split; [reflexivity | now constructor].
Qed.

(** X3: on a map with distinct keys and text under ["class"], the generic
    normalizer returns a dictionary with the map's keys in the map's order;
    each value is the coerced value of the map, and under ["class"] the
    coerced last component of the class name. *)
Theorem subconfig_settings_of_map `{B : Builtins} (m : dict) :
  NoDup (om_keys m) ->
  (forall v, In ("class", v) m -> is_str v = true) ->
  exists out,
    get_subconfig_settings (VMap m) = Ok (VDict out) /\
    dict_keys out = om_keys m /\
    Forall2 subconfig_entry m out.
Proof.
  intros Hnd Htext.
  destruct (subconfig_loop_spec m Htext []) as (out & Hrun & Hall);
    [exact Hnd|].
  exists out. split; [|split; [|exact Hall]].
  - unfold get_subconfig_settings, om_items. cbn [is_map negb].
    change (om_keys m) with (map fst m).
    rewrite (om_items_of_distinct m Hnd m (incl_refl m)). cbn [rbind].
    rewrite Hrun. reflexivity.
  - clear Hrun Hnd Htext. unfold dict_keys, om_keys.
    induction Hall as [|kv kv' l l' (Hk & _) _ IH]; cbn [map];
      [reflexivity | now rewrite Hk, IH].
Qed.

Lemma subconfig_settings_of_map_witness :
  get_subconfig_settings
    (VMap [("class", VStr "org.apache.cassandra.db.compaction.SizeTieredCompactionStrategy");
           ("max_threshold", VStr "32"); ("enabled", VStr "true")])
  = Ok (VDict [("class", VStr "SizeTieredCompactionStrategy");
               ("max_threshold", VInt 32); ("enabled", VStr "true")]) /\
  exists out,
    get_subconfig_settings
      (VMap [("class", VStr "org.apache.cassandra.db.compaction.SizeTieredCompactionStrategy");
             ("max_threshold", VStr "32"); ("enabled", VStr "true")])
    = Ok (VDict out) /\
    dict_keys out = ["class"; "max_threshold"; "enabled"].
Proof.
  split; [reflexivity|].
  destruct (@subconfig_settings_of_map plain_builtins
              [("class", VStr "org.apache.cassandra.db.compaction.SizeTieredCompactionStrategy");
               ("max_threshold", VStr "32"); ("enabled", VStr "true")])
    as (out & Hrun & Hkeys & _).
  - distinct_keys.
  - intros v [H|[H|[H|[]]]]; inversion H; reflexivity.
  - exists out. split; [exact Hrun | exact Hkeys].
Defined.

(** ** A class that is not text *)

Lemma get_class_name_not_text (v : value) :
  is_str v = false -> get_class_name v = Raise (split_error v).
Proof. destruct v; (reflexivity || discriminate). Qed.

Lemma replication_loop_not_text `{B : Builtins} (m : dict) (v : value) :
  om_lookup "class" m = Some v -> is_str v = false ->
  forall keys repl_config data_centers,
    (forall k, In k keys -> exists x, om_lookup k m = Some x) ->
    In "class" keys ->
    replication_loop m keys repl_config data_centers = Raise (split_error v).
Proof.
  intros Hv Hs. induction keys as [|key rest IH]; intros rc dcs Hkeys Hin;
    [contradiction|].
  assert (Hrest : forall k, In k rest -> exists x, om_lookup k m = Some x)
    by (intros k Hk; apply Hkeys; now right).
  cbn [replication_loop]. unfold om_getitem.
  destruct (String.eqb_spec key "class") as [->|Hnc].
  - rewrite Hv. cbn [rbind]. now rewrite get_class_name_not_text.
  - assert (Hin' : In "class" rest) by (destruct Hin; [congruence | assumption]).
    destruct (Hkeys key (or_introl eq_refl)) as [x Hx].
    destruct (String.eqb_spec key "replication_factor") as [->|Hnr];
      rewrite Hx; cbn [rbind]; now apply IH.
Qed.

Lemma om_items_of_keys (m : dict) (ks : list string) :
  (forall k, In k ks -> exists v, om_lookup k m = Some v) ->
  exists items,
    om_items_of m ks = Ok items /\
    map fst items = ks /\
    Forall (fun kv => om_lookup (fst kv) m = Some (snd kv)) items.
Proof.
  induction ks as [|k ks IH]; intros Hks.
  - exists []. repeat split. constructor.
  - destruct (Hks k (or_introl eq_refl)) as [v Hv].
    destruct IH as (items & Hrun & Hkeys & Hall); [intros; apply Hks; now right|].
    exists ((k, v) :: items). cbn. unfold om_getitem. rewrite Hv. cbn.
    rewrite Hrun. cbn. split; [reflexivity|].
    split; [now rewrite Hkeys | now constructor].
Qed.

Lemma subconfig_loop_not_text `{B : Builtins} (m : dict) (v : value) :
  om_lookup "class" m = Some v -> is_str v = false ->
  forall items settings,
    Forall (fun kv => om_lookup (fst kv) m = Some (snd kv)) items ->
    In "class" (map fst items) ->
    subconfig_loop items settings = Raise (split_error v).
Proof.
  intros Hv Hs. induction items as [|[k x] items IH]; intros settings Hall Hin;
    [contradiction|].
  inversion Hall as [|? ? Hkx Hall']; subst. cbn [fst snd] in Hkx.
  cbn [subconfig_loop].
  destruct (String.eqb_spec k "class") as [->|Hk].
  - assert (x = v) by congruence. subst x.
    now rewrite get_class_name_not_text.
  - cbn [rbind]. apply IH; [exact Hall'|].
    destruct Hin as [Hin|Hin]; [cbn in Hin; congruence | exact Hin].
Qed.

(** X4: a map whose ["class"] value is not a string makes both
    normalizers raise, whatever the other keys are: the [TypeError] of
    [bytes.split] given a string when the value is [bytes], and the
    [AttributeError] of the missing [split] when it is anything else. *)
Theorem normalizers_raise_on_class_not_text `{B : Builtins} (m : dict) (v : value) :
  om_lookup "class" m = Some v ->
  is_str v = false ->
  get_replication_settings (VMap m)
    = Raise (match v with
             | VBytes _ =>
                 PyException "TypeError" "a bytes-like object is required, not 'str'"
             | _ =>
                 PyException "AttributeError"
                   ("'" ++ type_name v ++ "' object has no attribute 'split'")
             end) /\
  get_subconfig_settings (VMap m)
    = Raise (match v with
             | VBytes _ =>
                 PyException "TypeError" "a bytes-like object is required, not 'str'"
             | _ =>
                 PyException "AttributeError"
                   ("'" ++ type_name v ++ "' object has no attribute 'split'")
             end).
Proof.
  change (om_lookup "class" m = Some v ->
          is_str v = false ->
          get_replication_settings (VMap m) = Raise (split_error v) /\
          get_subconfig_settings (VMap m) = Raise (split_error v)).
  intros Hv Hs. pose proof (om_lookup_some_key _ _ _ Hv) as Hin. split.
  - unfold get_replication_settings. cbn [is_map negb].
    rewrite (replication_loop_not_text m v Hv Hs (om_keys m) [] []
               (om_lookup_keys m) Hin).
    reflexivity.
  - unfold get_subconfig_settings, om_items. cbn [is_map negb].
    destruct (om_items_of_keys m (om_keys m) (om_lookup_keys m))
      as (items & Hitems & Hkeys & Hall).
    rewrite Hitems. cbn [rbind].
    rewrite (subconfig_loop_not_text m v Hv Hs items [] Hall)
      by (now rewrite Hkeys).
    reflexivity.
Qed.

Lemma normalizers_raise_on_class_not_text_witness :
  (get_replication_settings (VMap [("dc1", VStr "2"); ("class", VNone)])
     = Raise (PyException "AttributeError"
                "'NoneType' object has no attribute 'split'") /\
   get_subconfig_settings (VMap [("dc1", VStr "2"); ("class", VNone)])
     = Raise (PyException "AttributeError"
                "'NoneType' object has no attribute 'split'")) /\
  (get_replication_settings (VMap [("class", VBytes "a.B")])
     = Raise (PyException "TypeError" "a bytes-like object is required, not 'str'") /\
   get_subconfig_settings (VMap [("class", VBytes "a.B")])
     = Raise (PyException "TypeError" "a bytes-like object is required, not 'str'")).
Proof.
  split.
  - apply (@normalizers_raise_on_class_not_text plain_builtins
             [("dc1", VStr "2"); ("class", VNone)] VNone); reflexivity.
  - apply (@normalizers_raise_on_class_not_text plain_builtins
             [("class", VBytes "a.B")] (VBytes "a.B")); reflexivity.
Defined.

(** ** The columns of a keyspace *)

Section KeyspaceShape.
Context `{B : Builtins}.

Lemma keyspace_fields_shape (items : list (string * value)) :
  (forall v, In ("replication", v) items -> class_is_text v) ->
  (forall k v, In (k, v) items -> k <> "table_name") ->
  forall ks,
  NoDup (dict_keys ks ++ map (fun kv => key_mapper (fst kv)) items) ->
  exists new,
    keyspace_fields items ks = Ok (ks ++ new) /\
    Forall2 keyspace_field items new.
Proof.
  induction items as [|[k v] items IH]; intros Hrepl Htable ks Hnd.
  - exists []. rewrite app_nil_r. split; [reflexivity | constructor].
  - cbn [keyspace_fields].
    assert (Hkey : key_mapper k = if String.eqb k "keyspace_name" then "name" else k).
    { rewrite key_mapper_cases.
      destruct (String.eqb_spec k "keyspace_name"); [reflexivity|].
      destruct (String.eqb_spec k "table_name"); [|reflexivity].
      now destruct (Htable k v (or_introl eq_refl)). }
    assert (Hv' : exists v',
              (if String.eqb (key_mapper k) "replication"
               then get_replication_settings v else Ok v) = Ok v' /\
              keyspace_field (k, v) (key_mapper k, v')).
    { destruct (String.eqb_spec (key_mapper k) "replication") as [Hr|Hr].
      - apply key_mapper_replication in Hr as Hk. subst k.
        destruct (get_replication_settings_total v) as [d Hd];
          [apply Hrepl; now left|].
        exists (VDict d). split; [exact Hd|].
        split; [exact Hkey|]. split; [auto | intros H; now contradiction H].
      - exists v. split; [reflexivity|]. split; [exact Hkey|].
        split; [|reflexivity]. cbn [fst]. intros ->. now contradiction Hr. }
    destruct Hv' as (v' & Hrun & Hfield). rewrite Hrun. cbn [rbind].
    cbn [map fst] in Hnd.
    assert (Hfresh : dict_lookup (key_mapper k) ks = None).
    { apply dict_lookup_none. intros Hin.
      apply NoDup_remove_2 in Hnd. apply Hnd. apply in_or_app. now left. }
    rewrite (dict_set_fresh _ _ _ Hfresh).
    destruct (IH (fun x H => Hrepl x (or_intror H))
                 (fun k0 v0 H => Htable k0 v0 (or_intror H))
                 (ks ++ [(key_mapper k, v')])) as (new & Hnew & Hall).
    { unfold dict_keys. rewrite map_app. cbn [map fst].
      rewrite <- app_assoc. exact Hnd. }
    exists ((key_mapper k, v') :: new). rewrite Hnew, <- app_assoc.
    split; [reflexivity | now constructor].
Qed.

Lemma keyspace_row_shape (row : dict) (name : string) :
  keyspace_row row name ->
  exists ks, keyspace_fields row [] = Ok ks /\ Forall2 keyspace_field row ks.
Proof.
  intros [Hnd Hname Hno1 Hno2 Hrepl].
  apply (keyspace_fields_shape row).
  - intros v Hin. apply Hrepl. now apply dict_in_lookup.
  - intros k v Hin ->. now apply dict_in_key in Hin.
  - cbn [dict_keys map app]. rewrite <- (map_map fst key_mapper).
    apply NoDup_map_on; [|exact Hnd].
    intros x y Hx Hy. unfold dict_keys in *.
    apply in_map_iff in Hx. destruct Hx as ((kx & vx) & Hfx & Hx).
    apply in_map_iff in Hy. destruct Hy as ((ky & vy) & Hfy & Hy).
    cbn in Hfx, Hfy. subst x y.
    apply dict_in_key in Hx. apply dict_in_key in Hy.
    rewrite !key_mapper_cases.
    destruct (String.eqb_spec kx "keyspace_name");
      destruct (String.eqb_spec ky "keyspace_name");
      destruct (String.eqb_spec kx "table_name");
      destruct (String.eqb_spec ky "table_name"); congruence.
Qed.

Lemma keyspace_rows_shape (rows : list dict) :
  Forall (fun row => exists name, keyspace_row row name) rows ->
  forall acc, exists new,
    keyspace_rows rows acc = Ok (acc ++ new) /\
    Forall2 (fun row ks => Forall2 keyspace_field row ks)
      (filter is_listed rows) new.
Proof.
  induction 1 as [|row rows [name Hrow] _ IH]; intros acc.
  - exists []. rewrite app_nil_r. split; [reflexivity | constructor].
  - cbn [keyspace_rows filter]. unfold is_listed at 1.
    pose proof (kr_keyspace_name _ _ Hrow) as Hname.
    unfold dict_get. rewrite Hname. cbn [lower_of system_test rbind].
    unfold is_system_keyspace, startswith.
    destruct (String.eqb (py_lower name) "system" ||
              String.prefix "system_" (py_lower name)); cbn [negb].
    + apply IH.
    + destruct (keyspace_row_shape row name Hrow) as (ks & Hks & Hshape).
      rewrite Hks. cbn [rbind].
      destruct (IH (acc ++ [ks])) as (new & Hrun & Hall).
      exists (ks :: new). rewrite Hrun, <- app_assoc.
      split; [reflexivity | now constructor].
Qed.

End KeyspaceShape.

(** X5: each keyspace that [get_keyspace_configs] returns has one entry
    per column of its catalog row, in the row's order: ["keyspace_name"]
    under ["name"] and every other column under its own name, the
    ["replication"] value normalized and every other value as it was. *)
Theorem keyspace_configs_columns `{B : Builtins} `{D : Driver}
    (connection : value) (w : world) (rows : list dict) (w1 : world) :
  exec_query connection "SELECT * FROM keyspaces" w = (Ok rows, w1) ->
  Forall (fun row => exists name, keyspace_row row name) rows ->
  exists out,
    get_keyspace_configs connection w = (Ok out, w1) /\
    Forall2 (fun row ks => Forall2 keyspace_field row ks)
      (filter is_listed rows) out.
Proof.
  intros Hq Hrows.
  destruct (keyspace_rows_shape rows Hrows []) as (out & Hrun & Hall).
  exists out. split; [|exact Hall].
  unfold get_keyspace_configs, bind, lift. rewrite Hq. now rewrite Hrun.
Qed.

Lemma keyspace_configs_columns_witness :
  exists out,
    fst (get_keyspace_configs (VDict get_local_connection) []) = Ok out /\
    Forall2 (fun row ks => Forall2 keyspace_field row ks)
      (filter is_listed demo_keyspaces) out.
Proof.
  destruct (@keyspace_configs_columns plain_builtins demo_driver
              (VDict get_local_connection) [] demo_keyspaces
              (snd (exec_query (VDict get_local_connection)
                      "SELECT * FROM keyspaces" [])))
    as (out & Hrun & Hall).
  - reflexivity.
  - exact demo_keyspace_rows.
  - exists out. rewrite Hrun. auto.
Defined.

(** ** A row without a keyspace name *)

Section OnlyAttributeOrTypeErrors.
Context `{B : Builtins}.

Let raises_only {A} (r : result A) : Prop :=
  match r with
  | Ok _ => True
  | Raise e => attribute_or_type_error e
  end.

Lemma split_error_class (v : value) : attribute_or_type_error (split_error v).
Proof. destruct v; eexists; (now left) || (now right). Qed.

Lemma name_error_class (v : value) : attribute_or_type_error (name_error v).
Proof. destruct v; eexists; (now left) || (now right). Qed.

Lemma replication_loop_raises (m : dict) (keys : list string) :
  forall repl_config data_centers,
    (forall k, In k keys -> exists x, om_lookup k m = Some x) ->
    raises_only (replication_loop m keys repl_config data_centers).
Proof.
  induction keys as [|key rest IH]; intros rc dcs Hkeys; [exact I|].
  assert (Hrest : forall k, In k rest -> exists x, om_lookup k m = Some x)
    by (intros k Hk; apply Hkeys; now right).
  destruct (Hkeys key (or_introl eq_refl)) as [x Hx].
  cbn [replication_loop]. unfold om_getitem.
  destruct (String.eqb_spec key "class") as [->|Hnc].
  - rewrite Hx. cbn [rbind].
    destruct (is_str x) eqn:Hs.
    + destruct x; try discriminate Hs. cbn [get_class_name rbind]. now apply IH.
    + rewrite (get_class_name_not_text x Hs). apply split_error_class.
  - destruct (String.eqb_spec key "replication_factor") as [->|Hnr];
      rewrite Hx; cbn [rbind]; now apply IH.
Qed.

Lemma get_replication_settings_raises (v : value) :
  raises_only (get_replication_settings v).
Proof.
  unfold get_replication_settings.
  destruct v; cbn [is_map negb]; try exact I.
  pose proof (replication_loop_raises m (om_keys m) [] [] (om_lookup_keys m)) as H.
  destruct (replication_loop m (om_keys m) [] []); [exact I | exact H].
Qed.

Lemma keyspace_fields_raises (items : list (string * value)) :
  forall ks, raises_only (keyspace_fields items ks).
Proof.
  induction items as [|[k v] items IH]; intros ks; [exact I|].
  cbn [keyspace_fields].
  destruct (String.eqb (key_mapper k) "replication").
  - pose proof (get_replication_settings_raises v) as H.
    destruct (get_replication_settings v); [apply IH | exact H].
  - apply IH.
Qed.

(** The test on the name of a row with no text under ["keyspace_name"]. *)
Lemma system_test_nameless (row : dict) :
  (forall s, dict_lookup "keyspace_name" row <> Some (VStr s)) ->
  (let? ks_name := lower_of (dict_get row "keyspace_name" VNone) in
   system_test ks_name)
  = Raise (name_error (dict_get row "keyspace_name" VNone)).
Proof.
  intros Hname. unfold dict_get.
  destruct (dict_lookup "keyspace_name" row) as [v|] eqn:Hl; [|reflexivity].
  destruct v; try reflexivity. now destruct (Hname s).
Qed.

Lemma keyspace_rows_first_nameless (row : dict) (rest acc : list dict) :
  (forall s, dict_lookup "keyspace_name" row <> Some (VStr s)) ->
  keyspace_rows (row :: rest) acc
  = Raise (name_error (dict_get row "keyspace_name" VNone)).
Proof.
  intros Hname. pose proof (system_test_nameless row Hname) as Htest.
  cbn [keyspace_rows].
  destruct (lower_of (dict_get row "keyspace_name" VNone)) as [ks_name|e];
    cbn [rbind] in *.
  - now rewrite Htest.
  - now injection Htest as ->.
Qed.

Lemma keyspace_rows_nameless (rows : list dict) (row : dict) :
  In row rows ->
  (forall s, dict_lookup "keyspace_name" row <> Some (VStr s)) ->
  forall acc, exists e,
    keyspace_rows rows acc = Raise e /\ attribute_or_type_error e.
Proof.
  intros Hin Hname.
  induction rows as [|row0 rows IH]; intros acc; [contradiction|].
  destruct Hin as [->|Hin].
  - rewrite (keyspace_rows_first_nameless row rows acc Hname).
    eexists. split; [reflexivity | apply name_error_class].
  - cbn [keyspace_rows].
    destruct (lower_of (dict_get row0 "keyspace_name" VNone)) as [ks_name|e] eqn:Hlow;
      cbn [rbind].
    + destruct (system_test ks_name) as [system|e] eqn:Htest; cbn [rbind].
      * destruct system; [now apply IH|].
        pose proof (keyspace_fields_raises row0 []) as Hraise.
        destruct (keyspace_fields row0 []) as [ks|e]; cbn [rbind].
        -- now apply IH.
        -- exists e. split; [reflexivity | exact Hraise].
      * exists e. split; [reflexivity|].
        destruct ks_name; inversion Htest; eexists; (now left) || (now right).
    + exists e. split; [reflexivity|].
      destruct (dict_get row0 "keyspace_name" VNone); inversion Hlow;
        eexists; now left.
Qed.

End OnlyAttributeOrTypeErrors.

(** X6: when a row of the keyspace query has no string under
    ["keyspace_name"], [get_keyspace_configs] raises an [AttributeError] or
    a [TypeError] and returns no keyspace at all; the exception arises
    after the query, so the trace is the query's and nothing is logged.
    When that row is the first one, the exception is the [TypeError] of
    [bytes.startswith] given a string when the value is [bytes], and
    otherwise the [AttributeError] of the missing [lower] (on [None] when
    the column is missing). *)
Theorem keyspace_configs_nameless_row `{B : Builtins} `{D : Driver}
    (connection : value) (w : world) (rows : list dict) (w1 : world) (row : dict) :
  exec_query connection "SELECT * FROM keyspaces" w = (Ok rows, w1) ->
  In row rows ->
  (forall s, dict_lookup "keyspace_name" row <> Some (VStr s)) ->
  (exists e,
     get_keyspace_configs connection w = (Raise e, w1) /\
     exists msg, e = PyException "AttributeError" msg \/
                 e = PyException "TypeError" msg) /\
  (forall rest, rows = row :: rest ->
     get_keyspace_configs connection w =
     (Raise
        (match dict_get row "keyspace_name" VNone with
         | VBytes _ =>
             PyException "TypeError"
               "startswith first arg must be bytes or a tuple of bytes, not str"
         | v =>
             PyException "AttributeError"
               ("'" ++ type_name v ++ "' object has no attribute 'lower'")
         end), w1)).
Proof.
  intros Hq Hin Hname. split.
  - destruct (keyspace_rows_nameless rows row Hin Hname []) as (e & Hrun & He).
    exists e. split; [|exact He].
    unfold get_keyspace_configs, bind, lift. rewrite Hq. now rewrite Hrun.
  - intros rest ->.
    unfold get_keyspace_configs, bind, lift. rewrite Hq.
    rewrite (keyspace_rows_first_nameless row rest [] Hname).
    unfold name_error. now destruct (dict_get row "keyspace_name" VNone).
Qed.

Lemma keyspace_configs_nameless_row_witness :
  fst (@get_keyspace_configs plain_builtins
         (rows_driver [ [("durable_writes", VBool true)];
                        [("keyspace_name", VStr "my_app")] ])
         (VDict []) [])
    = Raise (PyException "AttributeError"
               "'NoneType' object has no attribute 'lower'") /\
  fst (@get_keyspace_configs plain_builtins
         (rows_driver [ [("keyspace_name", VBytes "my_app")] ])
         (VDict []) [])
    = Raise (PyException "TypeError"
               "startswith first arg must be bytes or a tuple of bytes, not str").
Proof.
  destruct (@keyspace_configs_nameless_row plain_builtins
              (rows_driver [ [("durable_writes", VBool true)];
                             [("keyspace_name", VStr "my_app")] ])
              (VDict []) []
              [ [("durable_writes", VBool true)]; [("keyspace_name", VStr "my_app")] ]
              (snd (@exec_query
                      (rows_driver [ [("durable_writes", VBool true)];
                                     [("keyspace_name", VStr "my_app")] ])
                      (VDict []) "SELECT * FROM keyspaces" []))
              [("durable_writes", VBool true)])
    as [_ Hfirst].
  { reflexivity. }
  { now left. }
  { intros s H. discriminate H. }
  destruct (@keyspace_configs_nameless_row plain_builtins
              (rows_driver [ [("keyspace_name", VBytes "my_app")] ])
              (VDict []) []
              [ [("keyspace_name", VBytes "my_app")] ]
              (snd (@exec_query
                      (rows_driver [ [("keyspace_name", VBytes "my_app")] ])
                      (VDict []) "SELECT * FROM keyspaces" []))
              [("keyspace_name", VBytes "my_app")])
    as [_ Hbytes].
  { reflexivity. }
  { now left. }
  { intros s H. discriminate H. }
  split.
  - rewrite (Hfirst _ eq_refl). reflexivity.
  - rewrite (Hbytes _ eq_refl). reflexivity.
Defined.

(** ** The paths of the query executor *)

Section ExecPaths.
Context `{D : Driver}.
Variables (connection : value) (query_stmt : string) (w : world).

Lemma exec_query_body_session (a : cluster_args) :
  cluster_arguments connection = Ok a ->
  cluster_new (w ++ [EvCluster a]) a = None ->
  cluster_connect (w ++ [EvCluster a]) a "system_schema" = None ->
  exec_query_body connection query_stmt w =
  (session_execute
     (w ++ [EvCluster a; EvConnect (fresh_sid w) "system_schema";
            EvExecute (fresh_sid w) query_stmt]) a query_stmt,
   w ++ [EvCluster a; EvConnect (fresh_sid w) "system_schema";
         EvExecute (fresh_sid w) query_stmt; EvShutdown (fresh_sid w)]).
Proof.
  intros Hargs Hnew Hconn.
  unfold exec_query_body, bind, lift. rewrite Hargs.
  unfold new_cluster, bind, emit. rewrite Hnew.
  unfold with_as, connect. rewrite Hconn.
  unfold execute, bind, emit, session_exit, emit.
  assert (Hsid : fresh_sid (w ++ [EvCluster a]) = fresh_sid w)
    by (rewrite fresh_sid_app; cbn [fresh_sid]; lia).
  rewrite Hsid, <- !app_assoc. reflexivity.
Qed.

End ExecPaths.

(** X7: when the cluster is built, the session opens and the statement
    returns rows, [exec_query] returns those rows, empty or not, as they
    are; it opens one session on ["system_schema"], executes the statement
    in it, shuts it down and logs nothing. *)
Theorem exec_query_returns_rows `{D : Driver}
    (connection : value) (query_stmt : string) (w : world)
    (a : cluster_args) (rows : list dict) :
  cluster_arguments connection = Ok a ->
  cluster_new (w ++ [EvCluster a]) a = None ->
  cluster_connect (w ++ [EvCluster a]) a "system_schema" = None ->
  session_execute
    (w ++ [EvCluster a; EvConnect (fresh_sid w) "system_schema";
           EvExecute (fresh_sid w) query_stmt]) a query_stmt = Ok rows ->
  exec_query connection query_stmt w =
  (Ok rows,
   w ++ [EvCluster a; EvConnect (fresh_sid w) "system_schema";
         EvExecute (fresh_sid w) query_stmt; EvShutdown (fresh_sid w)]).
Proof.
  intros Hargs Hnew Hconn Hexec.
  pose proof (exec_query_body_session connection query_stmt w a Hargs Hnew Hconn)
    as Hbody.
  rewrite Hexec in Hbody.
  now rewrite (exec_query_of_body _ _ _ _ _ Hbody).
Qed.

Lemma exec_query_returns_rows_witness :
  exec_query (VDict []) "SELECT * FROM tables WHERE keyspace_name = 'none';" []
  = (Ok [],
     [EvCluster {| contact_points := VList [VStr "localhost"];
                   port := VInt 9042;
                   load_balancing_policy := VObject "RoundRobinPolicy" |};
      EvConnect 0 "system_schema";
      EvExecute 0 "SELECT * FROM tables WHERE keyspace_name = 'none';";
      EvShutdown 0]).
Proof.
  apply (@exec_query_returns_rows demo_driver (VDict [])
           "SELECT * FROM tables WHERE keyspace_name = 'none';" []);
    reflexivity.
Defined.

(** X8: when the statement fails inside the session, the session is shut
    down before anything else: an exception derived from [Exception] is
    then logged and raised again ([NoHostAvailable] as the generic
    exception), and one that is not, such as [KeyboardInterrupt], goes on
    to the caller without a log entry. *)
Theorem exec_query_statement_fails `{D : Driver}
    (connection : value) (query_stmt : string) (w : world)
    (a : cluster_args) (e : exn) :
  cluster_arguments connection = Ok a ->
  cluster_new (w ++ [EvCluster a]) a = None ->
  cluster_connect (w ++ [EvCluster a]) a "system_schema" = None ->
  session_execute
    (w ++ [EvCluster a; EvConnect (fresh_sid w) "system_schema";
           EvExecute (fresh_sid w) query_stmt]) a query_stmt = Raise e ->
  exec_query connection query_stmt w =
  (Raise (match e with NoHostAvailable _ => connect_failure | _ => e end),
   w ++ [EvCluster a; EvConnect (fresh_sid w) "system_schema";
         EvExecute (fresh_sid w) query_stmt; EvShutdown (fresh_sid w)]
     ++ match e with PyBaseException _ _ => [] | _ => [EvLog e] end).
Proof.
  intros Hargs Hnew Hconn Hexec.
  pose proof (exec_query_body_session connection query_stmt w a Hargs Hnew Hconn)
    as Hbody.
  rewrite Hexec in Hbody.
  rewrite (exec_query_of_body _ _ _ _ _ Hbody).
  destruct e; rewrite <- ?app_assoc; cbn [app]; reflexivity.
Qed.

Lemma exec_query_statement_fails_witness :
  @exec_query interrupted_driver (VDict []) "SELECT * FROM keyspaces" []
  = (Raise (PyBaseException "KeyboardInterrupt" ""),
     [EvCluster {| contact_points := VList [VStr "localhost"];
                   port := VInt 9042;
                   load_balancing_policy := VObject "RoundRobinPolicy" |};
      EvConnect 0 "system_schema";
      EvExecute 0 "SELECT * FROM keyspaces";
      EvShutdown 0]) /\
  snd (@exec_query demo_driver (VDict []) "DROP" [])
  = [EvCluster {| contact_points := VList [VStr "localhost"];
                  port := VInt 9042;
                  load_balancing_policy := VObject "RoundRobinPolicy" |};
     EvConnect 0 "system_schema"; EvExecute 0 "DROP"; EvShutdown 0;
     EvLog (PyException "SyntaxException" "line 1:0 no viable alternative at input")].
Proof.
  split.
  - apply (@exec_query_statement_fails interrupted_driver (VDict [])
             "SELECT * FROM keyspaces" []
             {| contact_points := VList [VStr "localhost"];
                port := VInt 9042;
                load_balancing_policy := VObject "RoundRobinPolicy" |}
             (PyBaseException "KeyboardInterrupt" "")); reflexivity.
  - rewrite (@exec_query_statement_fails demo_driver (VDict []) "DROP" []
               {| contact_points := VList [VStr "localhost"];
                  port := VInt 9042;
                  load_balancing_policy := VObject "RoundRobinPolicy" |}
               (PyException "SyntaxException"
                  "line 1:0 no viable alternative at input"));
      reflexivity.
Defined.

(** X9: a connection without a [get] method, [None] for one, makes
    [exec_query] log and raise the [AttributeError] of the missing [get];
    no [Cluster] is built and nothing reaches the driver. *)
Theorem exec_query_connection_without_get `{D : Driver}
    (connection : value) (query_stmt : string) (w : world) :
  has_get connection = false ->
  exec_query connection query_stmt w =
  (Raise (PyException "AttributeError"
            ("'" ++ type_name connection ++ "' object has no attribute 'get'")),
   w ++ [EvLog (PyException "AttributeError"
                  ("'" ++ type_name connection ++ "' object has no attribute 'get'"))]).
Proof.
  intros Hget.
  assert (Hbody : exec_query_body connection query_stmt w =
                  (attribute_error connection "get", w)).
  { unfold exec_query_body, bind, lift, cluster_arguments.
    destruct connection; try discriminate Hget; reflexivity. }
  now rewrite (exec_query_of_body _ _ _ _ _ Hbody).
Qed.

Lemma exec_query_connection_without_get_witness :
  exec_query VNone "SELECT * FROM keyspaces" []
  = (Raise (PyException "AttributeError" "'NoneType' object has no attribute 'get'"),
     [EvLog (PyException "AttributeError"
               "'NoneType' object has no attribute 'get'")]).
Proof.
  apply (@exec_query_connection_without_get demo_driver VNone
           "SELECT * FROM keyspaces" []).
  reflexivity.
Defined.

(** ** What a run does to the cluster *)

Lemma open_sessions_app (w evs : world) :
  open_sessions (w ++ evs) = open_from (open_sessions w) evs.
Proof. unfold open_sessions. apply open_from_app. Qed.

Lemma exec_query_events `{D : Driver} (connection : value) (q : string) (w : world) :
  exists r evs,
    exec_query connection q w = (r, w ++ evs) /\
    Forall (query_event q) evs /\
    open_sessions (w ++ evs) = open_sessions w /\
    List.length (filter is_execute evs) <= 1 /\
    List.length (filter is_log evs) <= 1 /\
    (forall rows, r = Ok rows -> filter is_log evs = []).
Proof.
  destruct (exec_query_shape connection q w)
    as (r & evs & logs & Hrun & Hlogs & Hshape).
  exists r, (evs ++ logs). split; [exact Hrun|].
  assert (Hlogs' : logs = [] \/ exists e, logs = [EvLog e])
    by (destruct Hlogs as [?|[? _]]; auto).
  assert (Hok : forall rows, r = Ok rows -> logs = []).
  { intros rows ->. destruct Hlogs as [?|[_ [e He]]]; [assumption | discriminate]. }
  rewrite open_sessions_app.
  assert (Hlast : forall l, (logs = [] -> filter is_log l = []) ->
                  forall rows, r = Ok rows -> filter is_log l = []).
  { intros l Hl rows Hr. apply Hl. exact (Hok rows Hr). }
  destruct Hshape as [(-> & _ & _)|(a & _ & [[-> _]| ->])].
  - split; [|split; [|split; [|split]]].
    + destruct Hlogs' as [->|[e ->]]; cbn; repeat constructor.
    + destruct Hlogs' as [->|[e ->]]; reflexivity.
    + destruct Hlogs' as [->|[e ->]]; cbn; lia.
    + destruct Hlogs' as [->|[e ->]]; cbn; lia.
    + apply Hlast. now intros ->.
  - split; [|split; [|split; [|split]]].
    + destruct Hlogs' as [->|[e ->]]; cbn; repeat constructor.
    + destruct Hlogs' as [->|[e ->]]; reflexivity.
    + destruct Hlogs' as [->|[e ->]]; cbn; lia.
    + destruct Hlogs' as [->|[e ->]]; cbn; lia.
    + apply Hlast. now intros ->.
  - destruct (session_events_closed q w a logs Hlogs') as [_ Hopen].
    split; [|split; [exact Hopen|split; [|split]]].
    + destruct Hlogs' as [->|[e ->]]; cbn; repeat constructor.
    + destruct Hlogs' as [->|[e ->]]; cbn; lia.
    + destruct Hlogs' as [->|[e ->]]; cbn; lia.
    + apply Hlast. now intros ->.
Qed.

(** X10: whatever happens, [exec_query] executes no statement but the one
    it was given, and that one at most once; it opens sessions on
    ["system_schema"] only; it writes at most one log entry, and none when
    it returns rows. *)
Theorem exec_query_single_statement `{D : Driver}
    (connection : value) (query_stmt : string) (w : world) :
  exists r evs,
    exec_query connection query_stmt w = (r, w ++ evs) /\
    (forall sid stmt, In (EvExecute sid stmt) evs -> stmt = query_stmt) /\
    (forall sid keyspace, In (EvConnect sid keyspace) evs ->
                          keyspace = "system_schema") /\
    List.length (filter is_execute evs) <= 1 /\
    List.length (filter is_log evs) <= 1 /\
    (forall rows, r = Ok rows -> filter is_log evs = []).
Proof.
  destruct (exec_query_events connection query_stmt w)
    as (r & evs & Hrun & Hall & _ & Hexec & Hlog & Hok).
  exists r, evs. split; [exact Hrun|].
  rewrite Forall_forall in Hall.
  split; [intros sid stmt Hin; exact (Hall _ Hin)|].
  split; [intros sid ks Hin; exact (Hall _ Hin)|].
  auto.
Qed.

Section ReadsCatalog.
Context `{B : Builtins} `{D : Driver}.

Lemma reads_catalog_ret {A} (a : A) : reads_catalog (ret a).
Proof.
  intros w. exists (Ok a), []. rewrite app_nil_r. repeat split. constructor.
Qed.

Lemma reads_catalog_lift {A} (r : result A) : reads_catalog (lift r).
Proof.
  intros w. exists r, []. rewrite app_nil_r. repeat split. constructor.
Qed.

Lemma reads_catalog_bind {A C} (m : M A) (k : A -> M C) :
  reads_catalog m -> (forall a, reads_catalog (k a)) -> reads_catalog (bind m k).
Proof.
  intros Hm Hk w. unfold bind.
  destruct (Hm w) as (r & evs & -> & Hall & Hopen).
  destruct r as [a|e].
  - destruct (Hk a (w ++ evs)) as (r' & evs' & -> & Hall' & Hopen').
    exists r', (evs ++ evs'). rewrite app_assoc.
    split; [reflexivity|]. split; [now apply Forall_app|].
    now rewrite Hopen'.
  - exists (Raise e), evs. auto.
Qed.

Lemma reads_catalog_exec_query (connection : value) (q : string) :
  String.prefix "SELECT * FROM " q = true ->
  reads_catalog (exec_query connection q).
Proof.
  intros Hq w.
  destruct (exec_query_events connection q w) as (r & evs & Hrun & Hall & Hopen & _).
  exists r, evs. split; [exact Hrun|]. split; [|exact Hopen].
  eapply Forall_impl; [|exact Hall].
  intros [] Hev; cbn in *; subst; auto.
Qed.

Lemma reads_catalog_get_keyspace_configs (connection : value) :
  reads_catalog (get_keyspace_configs connection).
Proof.
  apply reads_catalog_bind.
  - now apply reads_catalog_exec_query.
  - intros rows. apply reads_catalog_lift.
Qed.

Lemma reads_catalog_get_table_configs (connection name : value) :
  reads_catalog (get_table_configs connection name).
Proof.
  apply reads_catalog_bind.
  - now apply reads_catalog_exec_query.
  - intros rows. apply reads_catalog_lift.
Qed.

Lemma reads_catalog_attach_tables (connection : value) (keyspaces : list dict) :
  reads_catalog (attach_tables connection keyspaces).
Proof.
  induction keyspaces as [|ks rest IH]; cbn [attach_tables].
  - apply reads_catalog_ret.
  - apply reads_catalog_bind; [apply reads_catalog_get_table_configs|].
    intros tables. apply reads_catalog_bind; [exact IH|].
    intros rest'. apply reads_catalog_ret.
Qed.

Lemma reads_catalog_get_current_config (connection : value) :
  reads_catalog (get_current_config connection).
Proof.
  unfold get_current_config.
  apply reads_catalog_bind; [apply reads_catalog_get_keyspace_configs|].
  intros kss. apply reads_catalog_bind; [apply reads_catalog_attach_tables|].
  intros kss'. apply reads_catalog_ret.
Qed.

End ReadsCatalog.

(** X11: every statement that [get_current_config] executes, on any
    cluster and to whatever end, starts with [SELECT * FROM], and every
    session it opens is on ["system_schema"]. *)
Theorem current_config_only_selects `{B : Builtins} `{D : Driver}
    (connection : value) (w : world) :
  exists r evs,
    get_current_config connection w = (r, w ++ evs) /\
    (forall sid stmt, In (EvExecute sid stmt) evs ->
                      String.prefix "SELECT * FROM " stmt = true) /\
    (forall sid keyspace, In (EvConnect sid keyspace) evs ->
                          keyspace = "system_schema").
Proof.
  destruct (reads_catalog_get_current_config connection w)
    as (r & evs & Hrun & Hall & _).
  exists r, evs. split; [exact Hrun|].
  rewrite Forall_forall in Hall.
  split; intros sid x Hin; exact (Hall _ Hin).
Qed.

(** X12: [get_current_config] leaves open exactly the sessions that were
    open before it, whether it returns or raises. *)
Theorem current_config_leaves_no_session `{B : Builtins} `{D : Driver}
    (connection : value) (w : world) :
  open_sessions (snd (get_current_config connection w)) = open_sessions w.
Proof.
  destruct (reads_catalog_get_current_config connection w)
    as (r & evs & Hrun & _ & Hopen).
  rewrite Hrun. exact Hopen.
Qed.

(** ** Failures and empty catalogs *)

Section Aborts.
Context `{B : Builtins} `{D : Driver}.

Lemma attach_tables_fails (c : value) (kss1 : list dict) (w1 : world)
    (tss : list (list dict)) (w2 : world) :
  tables_run c kss1 w1 tss w2 ->
  forall ks kss2 e w3,
    get_table_configs c (dict_get ks "name" VNone) w2 = (Raise e, w3) ->
    attach_tables c (kss1 ++ ks :: kss2) w1 = (Raise e, w3).
Proof.
  induction 1 as [w|ks0 kss w tables w1 tss w2 Hcall _ IH];
    intros ks kss2 e w3 Hfail; cbn [app attach_tables]; unfold bind.
  - now rewrite Hfail.
  - rewrite Hcall. now rewrite (IH ks kss2 e w3 Hfail).
Qed.

Lemma keyspace_rows_unlisted (rows : list dict) :
  Forall (fun row => is_listed row = false) rows ->
  forall acc, keyspace_rows rows acc = Ok acc.
Proof.
  induction 1 as [|row rows Hrow _ IH]; intros acc; [reflexivity|].
  cbn [keyspace_rows]. unfold is_listed in Hrow. unfold dict_get.
  destruct (dict_lookup "keyspace_name" row) as [[]|]; try discriminate Hrow.
  cbn [lower_of system_test rbind]. unfold is_system_keyspace, startswith.
  apply negb_false_iff in Hrow. rewrite Hrow. apply IH.
Qed.

End Aborts.

(** X13: a failure aborts the whole extraction.  When the keyspace query
    raises, [get_current_config] raises the same and asks for no table;
    when the table query of some keyspace raises, after those of the
    keyspaces before it returned, [get_current_config] raises the same, in
    the world that call left, and returns no part of the document. *)
Theorem current_config_aborts `{B : Builtins} `{D : Driver}
    (connection : value) (w : world) :
  (forall e w1,
     get_keyspace_configs
       (if truthy connection then connection else VDict get_local_connection) w
       = (Raise e, w1) ->
     get_current_config connection w = (Raise e, w1)) /\
  (forall kss1 ks kss2 w1 tss w2 e w3,
     get_keyspace_configs
       (if truthy connection then connection else VDict get_local_connection) w
       = (Ok (kss1 ++ ks :: kss2), w1) ->
     tables_run
       (if truthy connection then connection else VDict get_local_connection)
       kss1 w1 tss w2 ->
     get_table_configs
       (if truthy connection then connection else VDict get_local_connection)
       (dict_get ks "name" VNone) w2 = (Raise e, w3) ->
     get_current_config connection w = (Raise e, w3)).
Proof.
  split.
  - intros e w1 Hks. unfold get_current_config, bind.
    destruct (truthy connection); cbn [negb]; now rewrite Hks.
  - intros kss1 ks kss2 w1 tss w2 e w3 Hks Hrun Hfail.
    pose proof (attach_tables_fails _ _ _ _ _ Hrun ks kss2 e w3 Hfail) as Hattach.
    unfold get_current_config, bind.
    destruct (truthy connection); cbn [negb]; now rewrite Hks, Hattach.
Qed.

Lemma current_config_aborts_witness :
  fst (@get_current_config plain_builtins demo_driver
         (VDict [("hosts", VList [VStr "127.0.0.2"])]) [])
    = Raise connect_failure /\
  fst (@get_current_config plain_builtins flaky_driver VNone [])
    = Raise connect_failure.
Proof.
  destruct (@current_config_aborts plain_builtins demo_driver
              (VDict [("hosts", VList [VStr "127.0.0.2"])]) []) as [Hfirst _].
  destruct (@current_config_aborts plain_builtins flaky_driver VNone [])
    as [_ Hlater].
  split.
  - rewrite (Hfirst connect_failure
               (snd (@get_keyspace_configs plain_builtins demo_driver
                       (VDict [("hosts", VList [VStr "127.0.0.2"])]) [])));
      reflexivity.
  - rewrite (Hlater [] (hd [] demo_listed) [] demo_world1 [] demo_world1
               connect_failure
               (snd (@get_table_configs plain_builtins flaky_driver
                       (VDict get_local_connection) (VStr "My_App") demo_world1))).
    + reflexivity.
    + reflexivity.
    + constructor.
    + reflexivity.
Defined.

(** X14: when every row of the keyspace query is a system keyspace (or
    there is no row), [get_current_config] returns [{"keyspaces": []}] after
    that one query and asks for no table. *)
Theorem current_config_without_user_keyspace `{B : Builtins} `{D : Driver}
    (connection : value) (w : world) (rows : list dict) (w1 : world) :
  exec_query
    (if truthy connection then connection else VDict get_local_connection)
    "SELECT * FROM keyspaces" w = (Ok rows, w1) ->
  Forall (fun row => is_listed row = false) rows ->
  get_current_config connection w = (Ok (VDict [("keyspaces", VList [])]), w1).
Proof.
  intros Hq Hrows.
  unfold get_current_config, get_keyspace_configs, bind, lift.
  destruct (truthy connection); cbn [negb];
    rewrite Hq, (keyspace_rows_unlisted rows Hrows []); reflexivity.
Qed.

Lemma current_config_without_user_keyspace_witness :
  @get_current_config plain_builtins
    (rows_driver [ [("keyspace_name", VStr "system_auth")];
                   [("keyspace_name", VStr "SYSTEM")] ]) VNone []
  = (Ok (VDict [("keyspaces", VList [])]),
     [EvCluster {| contact_points := VList [VStr "localhost"];
                   port := VInt 9042;
                   load_balancing_policy := VObject "RoundRobinPolicy" |};
      EvConnect 0 "system_schema";
      EvExecute 0 "SELECT * FROM keyspaces";
      EvShutdown 0]).
Proof.
  apply (@current_config_without_user_keyspace plain_builtins
           (rows_driver [ [("keyspace_name", VStr "system_auth")];
                          [("keyspace_name", VStr "SYSTEM")] ]) VNone []
           [ [("keyspace_name", VStr "system_auth")];
             [("keyspace_name", VStr "SYSTEM")] ]).
  - reflexivity.
  - repeat constructor.
Defined.

(** ** What [main] prints *)

Section MainOutput.
Context `{B : Builtins} `{D : Driver}.

Lemma print_tables_dicts (tables : list dict) :
  forall out,
    print_tables (map VDict tables) out =
    (Ok tt,
     out ++ map (fun td => (tab ++ tab ++ "- " ++ py_str (dict_get td "name" VNone))%string)
              tables).
Proof.
  induction tables as [|td tables IH]; intros out; cbn [map print_tables conn_get].
  - now rewrite app_nil_r.
  - rewrite IH, <- app_assoc. reflexivity.
Qed.

Lemma keyspace_lines_tables (ks : dict) (tables : list dict) :
  dict_lookup "tables" ks = Some (VList (map VDict tables)) ->
  keyspace_lines ks =
  [(newline ++ "Keyspace : " ++ py_str (dict_get ks "name" (VStr "")))%string;
   ("- durable_writes : " ++ py_str (dict_get ks "name" (VStr "")))%string;
   "- Tables"] ++
  map (fun td => (tab ++ tab ++ "- " ++ py_str (dict_get td "name" VNone))%string)
    tables.
Proof.
  intros Ht. unfold keyspace_lines. rewrite Ht. now rewrite map_map.
Qed.

Lemma print_keyspaces_dicts (keyspaces : list dict) :
  Forall (fun ks => exists tables,
            dict_lookup "tables" ks = Some (VList (map VDict tables))) keyspaces ->
  forall out,
    print_keyspaces (map VDict keyspaces) out =
    (Ok tt, out ++ flat_map keyspace_lines keyspaces).
Proof.
  induction 1 as [|ks keyspaces [tables Ht] _ IH]; intros out;
    cbn [map print_keyspaces conn_get flat_map].
  - now rewrite app_nil_r.
  - assert (Hget : dict_get ks "tables" (VList []) = VList (map VDict tables))
      by (unfold dict_get; now rewrite Ht).
    rewrite Hget. cbn [rbind py_iter].
    rewrite print_tables_dicts, IH, (keyspace_lines_tables ks tables Ht).
    rewrite <- !app_assoc. reflexivity.
Qed.

Lemma attach_tables_tables (c : value) (keyspaces : list dict) :
  forall w out w',
    attach_tables c keyspaces w = (Ok out, w') ->
    Forall (fun ks => exists tables,
              dict_lookup "tables" ks = Some (VList (map VDict tables))) out.
Proof.
  induction keyspaces as [|ks rest IH]; intros w out w' Hrun;
    cbn [attach_tables] in Hrun; unfold bind, ret in Hrun.
  - injection Hrun as <- _. constructor.
  - destruct (get_table_configs c (dict_get ks "name" VNone) w) as [[tables|e] w1];
      [|discriminate Hrun].
    destruct (attach_tables c rest w1) as [[rest'|e] w2] eqn:Hrest;
      [|discriminate Hrun].
    injection Hrun as <- _. constructor; [|exact (IH _ _ _ Hrest)].
    exists tables. apply dict_lookup_set_same.
Qed.

Lemma get_current_config_document (c : value) (w : world) (config : value) (w1 : world) :
  get_current_config c w = (Ok config, w1) ->
  exists keyspaces,
    config = VDict [("keyspaces", VList (map VDict keyspaces))] /\
    Forall (fun ks => exists tables,
              dict_lookup "tables" ks = Some (VList (map VDict tables))) keyspaces.
Proof.
  unfold get_current_config, bind, ret.
  destruct (get_keyspace_configs _ w) as [[kss|e] w0]; [|discriminate].
  destruct (attach_tables _ kss w0) as [[kss'|e] w2] eqn:Hattach; [|discriminate].
  intros Hrun. injection Hrun as <- _.
  exists kss'. split; [reflexivity|]. exact (attach_tables_tables _ _ _ _ _ Hattach).
Qed.

End MainOutput.

(** X15: [main] reads the whole configuration before it prints.  When
    the extraction raises it prints nothing and the exception goes on;
    otherwise it prints, for each keyspace in order, the line with its
    name, the [durable_writes] line, which also carries the name, the
    line ["- Tables"], and one line per table with the table's name. *)
Theorem main_output `{B : Builtins} `{D : Driver} (w : world) :
  (forall e w1,
     get_current_config (VDict get_local_connection) w = (Raise e, w1) ->
     main w = ((Raise e, w1), [])) /\
  (forall config w1,
     get_current_config (VDict get_local_connection) w = (Ok config, w1) ->
     exists keyspaces,
       config = VDict [("keyspaces", VList (map VDict keyspaces))] /\
       main w = ((Ok tt, w1), flat_map keyspace_lines keyspaces)).
Proof.
  split.
  - intros e w1 Hrun. unfold main. now rewrite Hrun.
  - intros config w1 Hrun.
    destruct (get_current_config_document _ _ _ _ Hrun) as (kss & -> & Htables).
    exists kss. split; [reflexivity|].
    unfold main. rewrite Hrun.
    change (conn_get (VDict [("keyspaces", VList (map VDict kss))])
              "keyspaces" (VList []))
      with (Ok (VList (map VDict kss))).
    cbn [rbind py_iter].
    rewrite (print_keyspaces_dicts kss Htables []). reflexivity.
Qed.

Lemma main_output_witness :
  main [] =
  ((Ok tt, demo_world2),
   [(newline ++ "Keyspace : My_App")%string;
    "- durable_writes : My_App";
    "- Tables";
    (tab ++ tab ++ "- events")%string]).
Proof.
  destruct (@main_output plain_builtins demo_driver []) as [_ Hprints].
  destruct (Hprints
              (VDict [("keyspaces",
                       VList (map VDict
                                [dict_set (hd [] demo_listed) "tables"
                                   (VList (map VDict demo_tables))]))])
              demo_world2) as (kss & Hconfig & Hmain); [reflexivity|].
  rewrite Hmain. injection Hconfig as Hkss.
  destruct kss as [|ks [|ks' kss]]; try discriminate Hkss.
  injection Hkss as <-. reflexivity.
Defined.

(** ** The cluster behind a session *)

Lemma clusters_from_app (w1 w2 : world) :
  forall opened,
    clusters_from opened (w1 ++ w2) = clusters_from (clusters_from opened w1) w2.
Proof.
  induction w1 as [|ev w1 IH]; intros opened; cbn; [reflexivity|].
  destruct ev; apply IH.
Qed.

(** X16: [exec_query] never shuts down the [Cluster] it builds: whenever
    the call opened a session, the control connection of that cluster is
    still open when the call ends, beside those that were open before;
    and a call that returns rows did open a session. *)
Theorem exec_query_never_shuts_cluster `{D : Driver}
    (connection : value) (query_stmt : string) (w : world) :
  exists r evs,
    exec_query connection query_stmt w = (r, w ++ evs) /\
    (forall sid, ~ In (EvClusterShutdown sid) evs) /\
    (forall sid keyspace,
       In (EvConnect sid keyspace) evs ->
       open_clusters (w ++ evs) = open_clusters w ++ [sid]) /\
    (forall rows, r = Ok rows ->
                  exists sid, In (EvConnect sid "system_schema") evs).
Proof.
  destruct (exec_query_shape connection query_stmt w)
    as (r & evs & logs & Hrun & Hlogs & Hshape).
  exists r, (evs ++ logs). split; [exact Hrun|].
  assert (Hlogs' : logs = [] \/ exists e, logs = [EvLog e])
    by (destruct Hlogs as [?|[? _]]; auto).
  unfold open_clusters at 1. rewrite clusters_from_app. fold (open_clusters w).
  destruct Hshape as [(-> & Hr & _)|(a & _ & [[-> Hr]| ->])].
  - split; [|split].
    + intros sid Hin. destruct Hlogs' as [->|[e ->]]; cbn in Hin;
        intuition discriminate.
    + intros sid ks Hin. destruct Hlogs' as [->|[e ->]]; cbn in Hin;
        intuition discriminate.
    + intros rows ->. destruct Hr as [e He]. discriminate.
  - split; [|split].
    + intros sid Hin. destruct Hlogs' as [->|[e ->]]; cbn in Hin;
        intuition discriminate.
    + intros sid ks Hin. destruct Hlogs' as [->|[e ->]]; cbn in Hin;
        intuition discriminate.
    + intros rows ->. destruct Hr as [e He]. discriminate.
  - split; [|split].
    + intros sid Hin. destruct Hlogs' as [->|[e ->]]; cbn in Hin;
        intuition discriminate.
    + intros sid ks Hin.
      assert (Hsid : sid = fresh_sid (w ++ [EvCluster a])).
      { destruct Hlogs' as [->|[e ->]]; cbn in Hin;
          repeat (destruct Hin as [Hin|Hin]; [try discriminate Hin|]);
          try contradiction; now injection Hin. }
      subst sid. destruct Hlogs' as [->|[e ->]]; reflexivity.
    + intros rows _. eexists. right. left. reflexivity.
Qed.
